(** * MemBlock: a handle to a region of memory in another process

    Shallow embedding of [src/BlackBone/Process/MemBlock.cpp].

    A [MemBlock] is a descriptor (address, size, protection, ownership flag,
    backing kind, accessor pointer).  Its methods call out to three external
    collaborators: the native subsystem ([VirualAllocExT]), the process memory
    accessor ([ProcessMemory::Protect/Free/Read/Write]) and the driver channel
    ([Driver().ProtectMem/FreeMem]).  None of them belongs to this file of the
    repository, so they are parameters of the development; every call that the
    block makes is recorded in a log, so that statements can speak about which
    collaborator was called, with which arguments and in which order. *)

From Stdlib Require Import ZArith List Bool Lia.
Import ListNotations.
Local Open Scope Z_scope.

(** ** Machine integers *)

(** [size_t] is 32 bits wide in the Win32 build and 64 bits wide in the x64
    build; [ptr_t] is a 64-bit unsigned integer in both. *)
Inductive Arch : Type := X86 | X64.

Definition size_bits (a : Arch) : Z :=
  match a with X86 => 32 | X64 => 64 end.

Definition wrap (bits n : Z) : Z := n mod 2 ^ bits.

Definition ptr_wrap (n : Z) : Z := wrap 64 n.
Definition size_wrap (a : Arch) (n : Z) : Z := wrap (size_bits a) n.

Definition in_ptr_t (n : Z) : Prop := 0 <= n < 2 ^ 64.
Definition in_size_t (a : Arch) (n : Z) : Prop := 0 <= n < 2 ^ size_bits a.

(** ** Constants and macros of the platform headers *)

Definition NTSTATUS := Z.

Definition STATUS_SUCCESS : NTSTATUS := 0.
Definition STATUS_IMAGE_NOT_AT_BASE : NTSTATUS := 0x40000003.

(** [NT_SUCCESS(s)] is [((NTSTATUS)(s)) >= 0] on the signed status value. *)
Definition NT_SUCCESS (s : NTSTATUS) : bool := 0 <=? s.

Definition MEM_COMMIT : Z := 0x1000.
Definition MEM_DECOMMIT : Z := 0x4000.
Definition MEM_RELEASE : Z := 0x8000.

Definition PAGE_READONLY : Z := 0x02.
Definition PAGE_READWRITE : Z := 0x04.
Definition PAGE_EXECUTE_READWRITE : Z := 0x40.

(** Modelled from the spec: [Align] is a helper of the repository that is
    declared outside [MemBlock.cpp].  The spec says that the size is first
    rounded up to the allocation granularity (page size) before use; the
    result is a [size_t], so it wraps at the width of the build. *)
Definition Align (a : Arch) (val alignment : Z) : Z :=
  size_wrap a
    (if val mod alignment =? 0 then val
     else (val / alignment + 1) * alignment).

(** ** The block descriptor *)

Section MemBlockModel.

(** Identity of a [ProcessMemory] object (the accessor of one target
    process) and the state of everything outside the block. *)
Variable ProcessMemory : Type.
Variable Ext : Type.

Record MemBlock : Type := mkMemBlock {
  _ptr        : Z;                      (* ptr_t  *)
  _memory     : option ProcessMemory;   (* ProcessMemory*, None = nullptr *)
  _size       : Z;                      (* size_t *)
  _protection : Z;                      (* DWORD  *)
  _own        : bool;
  _physical   : bool
}.

Definition valid (b : MemBlock) : bool := negb (_ptr b =? 0).

(** The canonical empty descriptor of the spec. *)
Definition is_empty (b : MemBlock) : Prop :=
  _ptr b = 0 /\ _size b = 0 /\ _protection b = 0.

(** ** The world outside the block *)

(** The thread's last-status slot is a global that both the block and the
    collaborators read and write. *)
Record Sys : Type := mkSys {
  os       : Ext;
  lastNt   : NTSTATUS
}.

(** Calls issued to the collaborators, in the order they were made. *)
Inductive Call : Type :=
| CAlloc      (m : ProcessMemory) (ptr size type prot : Z)
| CMemProtect (m : ProcessMemory) (ptr size prot : Z) (pOld : bool)
| CMemFree    (m : ProcessMemory) (ptr size type : Z)
| CMemRead    (m : ProcessMemory) (ptr size : Z) (handleHoles : bool)
| CMemWrite   (m : ProcessMemory) (ptr size : Z) (data : list Z)
| CDrvProtect (pid ptr size prot : Z)
| CDrvFree    (pid ptr size type : Z).

Definition to_accessor (c : Call) : bool :=
  match c with
  | CMemProtect _ _ _ _ _ | CMemFree _ _ _ _
  | CMemRead _ _ _ _ | CMemWrite _ _ _ _ => true
  | _ => false
  end.

Definition to_driver (c : Call) : bool :=
  match c with
  | CDrvProtect _ _ _ _ | CDrvFree _ _ _ _ => true
  | _ => false
  end.

Definition driver_pid (c : Call) : option Z :=
  match c with
  | CDrvProtect pid _ _ _ | CDrvFree pid _ _ _ => Some pid
  | _ => None
  end.

Record World : Type := mkWorld {
  sys : Sys;
  log : list Call
}.

(** The collaborators.  [VirualAllocExT] takes its address by reference and
    hands back the address it settled on next to the status. *)
Record Collaborators : Type := mkCollaborators {
  core_DEP        : ProcessMemory -> bool;
  core_pid        : ProcessMemory -> Z;
  CastProtection  : Z -> bool -> Z;
  VirualAllocExT  : ProcessMemory -> Z -> Z -> Z -> Z -> Sys -> (NTSTATUS * Z) * Sys;
  mem_Protect     : ProcessMemory -> Z -> Z -> Z -> Sys -> (NTSTATUS * Z) * Sys;
  mem_Free        : ProcessMemory -> Z -> Z -> Z -> Sys -> NTSTATUS * Sys;
  mem_Read        : ProcessMemory -> Z -> Z -> bool -> Sys -> (NTSTATUS * list Z) * Sys;
  mem_Write       : ProcessMemory -> Z -> Z -> list Z -> Sys -> NTSTATUS * Sys;
  drv_ProtectMem  : Z -> Z -> Z -> Z -> Sys -> NTSTATUS * Sys;
  drv_FreeMem     : Z -> Z -> Z -> Z -> Sys -> NTSTATUS * Sys
}.

Variable arch : Arch.
Variable C : Collaborators.

(** ** A state monad with failure

    [None] stands for a null-pointer dereference of [_memory]. *)
Definition M (S A : Type) : Type := S -> option (A * S).

Definition ret {S A} (x : A) : M S A := fun s => Some (x, s).

Definition bind {S A B} (c : M S A) (k : A -> M S B) : M S B :=
  fun s => match c s with
           | Some (x, s') => k x s'
           | None => None
           end.

Notation "x <- c ;; k" := (bind c (fun x => k))
  (at level 61, c at next level, right associativity).
Notation "c ;;; k" := (bind c (fun _ => k))
  (at level 61, right associativity).

(** Calls to the collaborators, on the world. *)
Definition extcall {A} (c : Call) (f : Sys -> A * Sys) : M World A :=
  fun w => let (r, s') := f (sys w) in
           Some (r, mkWorld s' (log w ++ [c])).

(** [LastNtStatus(status)] and [LastNtStatus()]. *)
Definition SetLastNtStatus (s : NTSTATUS) : M World unit :=
  fun w => Some (tt, mkWorld (mkSys (os (sys w)) s) (log w)).

Definition GetLastNtStatus : M World NTSTATUS :=
  fun w => Some (lastNt (sys w), w).

(** A method runs on the object and the world. *)
Record Obj : Type := mkObj {
  this  : MemBlock;
  world : World
}.

Definition lift {A} (c : M World A) : M Obj A :=
  fun o => match c (world o) with
           | Some (x, w') => Some (x, mkObj (this o) w')
           | None => None
           end.

Definition self : M Obj MemBlock := fun o => Some (this o, o).

Definition assign (f : MemBlock -> MemBlock) : M Obj unit :=
  fun o => Some (tt, mkObj (f (this o)) (world o)).

(** [_memory->...]: dereferences the accessor pointer. *)
Definition memory : M Obj ProcessMemory :=
  fun o => match _memory (this o) with
           | Some m => Some (m, o)
           | None => None
           end.

Definition set_ptr (v : Z) (b : MemBlock) : MemBlock :=
  mkMemBlock v (_memory b) (_size b) (_protection b) (_own b) (_physical b).
Definition set_size (v : Z) (b : MemBlock) : MemBlock :=
  mkMemBlock (_ptr b) (_memory b) v (_protection b) (_own b) (_physical b).
Definition set_protection (v : Z) (b : MemBlock) : MemBlock :=
  mkMemBlock (_ptr b) (_memory b) (_size b) v (_own b) (_physical b).
Definition set_own (v : bool) (b : MemBlock) : MemBlock :=
  mkMemBlock (_ptr b) (_memory b) (_size b) (_protection b) v (_physical b).
Definition set_memory (v : option ProcessMemory) (b : MemBlock) : MemBlock :=
  mkMemBlock (_ptr b) v (_size b) (_protection b) (_own b) (_physical b).

(** ** The operations of [MemBlock.cpp] *)

(** [MemBlock( mem, ptr, size, prot, own = true, physical = false )] *)
Definition MemBlock_ctor (mem : ProcessMemory) (ptr size prot : Z)
    (own physical : bool) : MemBlock :=
  mkMemBlock ptr (Some mem) size prot own physical.

(** [MemBlock::Allocate( process, size, desired, protection )] *)
Definition Allocate (process : ProcessMemory) (size desired protection : Z)
    : M World MemBlock :=
  let newProt := CastProtection C protection (core_DEP C process) in
  r1 <- extcall (CAlloc process desired size MEM_COMMIT newProt)
          (VirualAllocExT C process desired size MEM_COMMIT newProt) ;;
  desired64 <-
    (if negb (fst r1 =? STATUS_SUCCESS) then
       r2 <- extcall (CAlloc process 0 size MEM_COMMIT newProt)
               (VirualAllocExT C process 0 size MEM_COMMIT newProt) ;;
       if fst r2 =? STATUS_SUCCESS then
         SetLastNtStatus STATUS_IMAGE_NOT_AT_BASE ;;; ret (snd r2)
       else ret 0
     else ret (snd r1)) ;;
  ret (MemBlock_ctor process desired64 size protection true false).

(** [MemBlock::Free( size = 0 )] *)
Definition Free (size : Z) : M Obj NTSTATUS :=
  b <- self ;;
  if negb (_ptr b =? 0) then
    let size := Align arch size 0x1000 in
    m <- memory ;;
    status <-
      (if _physical b then
         lift (extcall (CDrvFree (core_pid C m) (_ptr b) size MEM_RELEASE)
                 (drv_FreeMem C (core_pid C m) (_ptr b) size MEM_RELEASE))
       else
         let type := if size =? 0 then MEM_RELEASE else MEM_DECOMMIT in
         lift (extcall (CMemFree m (_ptr b) size type)
                 (mem_Free C m (_ptr b) size type))) ;;
    if negb (NT_SUCCESS status) then lift GetLastNtStatus
    else
      (if size =? 0 then
         assign (set_ptr 0) ;;; assign (set_size 0) ;;;
         assign (set_protection 0)
       else
         assign (fun b => set_ptr (ptr_wrap (_ptr b + size)) b) ;;;
         assign (fun b => set_size (size_wrap arch (_size b - size)) b)) ;;;
      ret STATUS_SUCCESS
  else ret STATUS_SUCCESS.

(** [MemBlock::~MemBlock()] *)
Definition destroy : M Obj unit :=
  b <- self ;;
  if _own b then Free 0 ;;; ret tt else ret tt.

(** [MemBlock::Realloc( size, desired, protection )] *)
Definition Realloc (size desired protection : Z) : M Obj Z :=
  m <- memory ;;
  r1 <- lift (extcall (CAlloc m desired size MEM_COMMIT protection)
                (VirualAllocExT C m desired size MEM_COMMIT protection)) ;;
  desired64 <-
    (if snd r1 =? 0 then
       r2 <- lift (extcall (CAlloc m 0 size MEM_COMMIT protection)
                     (VirualAllocExT C m 0 size MEM_COMMIT protection)) ;;
       if negb (snd r2 =? 0) then
         lift (SetLastNtStatus STATUS_IMAGE_NOT_AT_BASE) ;;; ret (snd r2)
       else ret (snd r2)
     else ret (snd r1)) ;;
  if negb (desired64 =? 0) then
    Free 0 ;;;
    assign (set_ptr desired64) ;;;
    assign (set_size size) ;;;
    assign (set_protection protection) ;;;
    ret desired64
  else ret desired64.

(** [MemBlock::Protect( protection, offset = 0, size = 0, pOld = nullptr )].
    The second component of the result is what the accessor stored through
    [pOld], when the caller passed one and the accessor was the one called. *)
Definition Protect (protection offset size : Z) (pOld : bool)
    : M Obj (NTSTATUS * option Z) :=
  m <- memory ;;
  b <- self ;;
  let prot := CastProtection C protection (core_DEP C m) in
  let size := if size =? 0 then _size b else size in
  if _physical b then
    st <- lift (extcall
                  (CDrvProtect (core_pid C m) (ptr_wrap (_ptr b + offset)) size prot)
                  (drv_ProtectMem C (core_pid C m) (ptr_wrap (_ptr b + offset)) size prot)) ;;
    ret (st, None)
  else
    r <- lift (extcall (CMemProtect m (ptr_wrap (_ptr b + offset)) size prot pOld)
                 (mem_Protect C m (ptr_wrap (_ptr b + offset)) size prot)) ;;
    ret (fst r, if pOld then Some (snd r) else None).

(** [MemBlock::Read( offset, size, pResult, handleHoles = false )] *)
Definition Read (offset size : Z) (handleHoles : bool)
    : M Obj (NTSTATUS * list Z) :=
  m <- memory ;;
  b <- self ;;
  lift (extcall (CMemRead m (ptr_wrap (_ptr b + offset)) size handleHoles)
          (mem_Read C m (ptr_wrap (_ptr b + offset)) size handleHoles)).

(** [MemBlock::Write( offset, size, pData )] *)
Definition Write (offset size : Z) (data : list Z) : M Obj NTSTATUS :=
  m <- memory ;;
  b <- self ;;
  lift (extcall (CMemWrite m (ptr_wrap (_ptr b + offset)) size data)
          (mem_Write C m (ptr_wrap (_ptr b + offset)) size data)).

(** [MemBlock::Reset()] *)
Definition Reset : M Obj unit :=
  Free 0 ;;;
  assign (set_ptr 0) ;;;
  assign (set_size 0) ;;;
  assign (set_protection 0) ;;;
  assign (set_own false) ;;;
  assign (set_memory None).

(** ** Vocabulary for the statements *)

(** The native free that [Free] issues for block [b], bound to accessor [m],
    once the size has been aligned to [sz], and the collaborator's answer. *)
Definition native_free_call (m : ProcessMemory) (b : MemBlock) (sz : Z) : Call :=
  if _physical b then CDrvFree (core_pid C m) (_ptr b) sz MEM_RELEASE
  else CMemFree m (_ptr b) sz (if sz =? 0 then MEM_RELEASE else MEM_DECOMMIT).

Definition native_free_reply (m : ProcessMemory) (b : MemBlock) (sz : Z)
    (s : Sys) : NTSTATUS * Sys :=
  if _physical b then drv_FreeMem C (core_pid C m) (_ptr b) sz MEM_RELEASE s
  else mem_Free C m (_ptr b) sz (if sz =? 0 then MEM_RELEASE else MEM_DECOMMIT) s.

(** The descriptor after a full free, and after a partial free of [sz]
    bytes. *)
Definition cleared (b : MemBlock) : MemBlock :=
  mkMemBlock 0 (_memory b) 0 0 (_own b) (_physical b).

Definition advanced (b : MemBlock) (sz : Z) : MemBlock :=
  mkMemBlock (ptr_wrap (_ptr b + sz)) (_memory b)
    (size_wrap arch (_size b - sz)) (_protection b) (_own b) (_physical b).

(** The two allocation attempts of [Allocate]: the one at the desired
    address, and the fallback at address 0 that follows a denial. *)
Definition first_attempt (process : ProcessMemory) (size desired protection : Z)
    (s : Sys) : (NTSTATUS * Z) * Sys :=
  VirualAllocExT C process desired size MEM_COMMIT
    (CastProtection C protection (core_DEP C process)) s.

Definition fallback_attempt (process : ProcessMemory)
    (size desired protection : Z) (s : Sys) : (NTSTATUS * Z) * Sys :=
  VirualAllocExT C process 0 size MEM_COMMIT
    (CastProtection C protection (core_DEP C process))
    (snd (first_attempt process size desired protection s)).

(** The address that the two allocation attempts of [Realloc] end with. *)
Definition realloc_address (m : ProcessMemory) (size desired protection : Z)
    (s : Sys) : Z :=
  let r1 := VirualAllocExT C m desired size MEM_COMMIT protection s in
  if snd (fst r1) =? 0 then
    snd (fst (VirualAllocExT C m 0 size MEM_COMMIT protection (snd r1)))
  else snd (fst r1).

(** The system as [Realloc] finds it once its allocation attempts are
    done: after the one or two requests, with the relocation notice in the
    last-status slot when the fallback handed back an address. *)
Definition realloc_attempts_sys (m : ProcessMemory)
    (size desired protection : Z) (s : Sys) : Sys :=
  let r1 := VirualAllocExT C m desired size MEM_COMMIT protection s in
  if snd (fst r1) =? 0 then
    let r2 := VirualAllocExT C m 0 size MEM_COMMIT protection (snd r1) in
    if negb (snd (fst r2) =? 0) then
      mkSys (os (snd r2)) STATUS_IMAGE_NOT_AT_BASE
    else snd r2
  else snd r1.

(** A call goes where the backing kind of the block says it should. *)
Definition routed (pid : Z) (physical : bool) (c : Call) : bool :=
  if physical then
    to_driver c && negb (to_accessor c) &&
    match driver_pid c with Some p => p =? pid | None => false end
  else to_accessor c && negb (to_driver c).

Definition is_alloc (c : Call) : bool :=
  match c with CAlloc _ _ _ _ _ => true | _ => false end.

End MemBlockModel.

Arguments mkMemBlock {ProcessMemory} _ _ _ _ _ _.
Arguments _ptr {ProcessMemory} _.
Arguments _memory {ProcessMemory} _.
Arguments _size {ProcessMemory} _.
Arguments _protection {ProcessMemory} _.
Arguments _own {ProcessMemory} _.
Arguments _physical {ProcessMemory} _.
Arguments valid {ProcessMemory} _.
Arguments is_empty {ProcessMemory} _.
Arguments mkSys {Ext} _ _.
Arguments os {Ext} _.
Arguments lastNt {Ext} _.
Arguments mkWorld {ProcessMemory Ext} _ _.
Arguments sys {ProcessMemory Ext} _.
Arguments log {ProcessMemory Ext} _.
Arguments mkObj {ProcessMemory Ext} _ _.
Arguments this {ProcessMemory Ext} _.
Arguments world {ProcessMemory Ext} _.
Arguments CAlloc {ProcessMemory} m ptr size type prot.
Arguments CMemProtect {ProcessMemory} m ptr size prot pOld.
Arguments CMemFree {ProcessMemory} m ptr size type.
Arguments CMemRead {ProcessMemory} m ptr size handleHoles.
Arguments CMemWrite {ProcessMemory} m ptr size data.
Arguments CDrvProtect {ProcessMemory} pid ptr size prot.
Arguments CDrvFree {ProcessMemory} pid ptr size type.
Arguments to_accessor {ProcessMemory} c.
Arguments to_driver {ProcessMemory} c.
Arguments driver_pid {ProcessMemory} c.
Arguments core_DEP {ProcessMemory Ext} _ _.
Arguments core_pid {ProcessMemory Ext} _ _.
Arguments CastProtection {ProcessMemory Ext} _ _ _.
Arguments VirualAllocExT {ProcessMemory Ext} _ _ _ _ _ _ _.
Arguments mem_Protect {ProcessMemory Ext} _ _ _ _ _ _.
Arguments mem_Free {ProcessMemory Ext} _ _ _ _ _ _.
Arguments mem_Read {ProcessMemory Ext} _ _ _ _ _ _.
Arguments mem_Write {ProcessMemory Ext} _ _ _ _ _ _.
Arguments drv_ProtectMem {ProcessMemory Ext} _ _ _ _ _ _.
Arguments drv_FreeMem {ProcessMemory Ext} _ _ _ _ _ _.
Arguments MemBlock_ctor {ProcessMemory} _ _ _ _ _ _.
Arguments Allocate {ProcessMemory Ext} C process size desired protection _.
Arguments Free {ProcessMemory Ext} arch C size _.
Arguments destroy {ProcessMemory Ext} arch C _.
Arguments Realloc {ProcessMemory Ext} arch C size desired protection _.
Arguments Protect {ProcessMemory Ext} C protection offset size pOld _.
Arguments Read {ProcessMemory Ext} C offset size handleHoles _.
Arguments Write {ProcessMemory Ext} C offset size data _.
Arguments Reset {ProcessMemory Ext} arch C _.
Arguments cleared {ProcessMemory} b.
Arguments advanced {ProcessMemory} arch b sz.
Arguments native_free_call {ProcessMemory Ext} C m b sz.
Arguments native_free_reply {ProcessMemory Ext} C m b sz s.
Arguments first_attempt {ProcessMemory Ext} C process size desired protection s.
Arguments fallback_attempt {ProcessMemory Ext} C process size desired protection s.
Arguments realloc_attempts_sys {ProcessMemory Ext} C m size desired protection s.
Arguments realloc_address {ProcessMemory Ext} C m size desired protection s.
Arguments routed {ProcessMemory} pid physical c.
Arguments is_alloc {ProcessMemory} c.

(** ** A scripted collaborator

    A concrete stand-in for the three collaborators, used to run the
    operations on explicit inputs.  The target process is [tt]; the
    external state holds the answers that the next allocation requests get
    and the status with which free and protect requests are answered. *)
Module Mock.

Record Script : Type := mkScript {
  allocs     : list (NTSTATUS * Z);
  free_st    : NTSTATUS;
  protect_st : NTSTATUS
}.

Definition STATUS_NO_MEMORY : NTSTATUS := -1073741801.        (* 0xC0000017 *)
Definition STATUS_ACCESS_DENIED : NTSTATUS := -1073741790.    (* 0xC0000022 *)
Definition STATUS_CONFLICTING_ADDRESSES : NTSTATUS := -1073741800. (* 0xC0000018 *)

Definition alloc (_ : unit) (ptr size type prot : Z) (s : Sys Script)
    : (NTSTATUS * Z) * Sys Script :=
  match allocs (os s) with
  | [] => ((STATUS_NO_MEMORY, 0), mkSys (os s) STATUS_NO_MEMORY)
  | (st, p) :: rest =>
      ((st, p), mkSys (mkScript rest (free_st (os s)) (protect_st (os s))) st)
  end.

Definition answer {A} (pick : Script -> NTSTATUS) (extra : A) (s : Sys Script)
    : (NTSTATUS * A) * Sys Script :=
  ((pick (os s), extra), mkSys (os s) (pick (os s))).

Definition status_only (pick : Script -> NTSTATUS) (s : Sys Script)
    : NTSTATUS * Sys Script :=
  (pick (os s), mkSys (os s) (pick (os s))).

Definition collab : Collaborators unit Script :=
  mkCollaborators unit Script
    (fun _ => true)
    (fun _ => 4242)
    (fun prot _ => prot)
    alloc
    (fun _ _ _ _ => answer protect_st PAGE_READWRITE)
    (fun _ _ _ _ => status_only free_st)
    (fun _ _ _ _ => answer (fun _ => STATUS_SUCCESS) [])
    (fun _ _ _ _ => status_only (fun _ => STATUS_SUCCESS))
    (fun _ _ _ _ => status_only protect_st)
    (fun _ _ _ _ => status_only free_st).

Definition start (a : list (NTSTATUS * Z)) (f p : NTSTATUS) : World unit Script :=
  mkWorld (mkSys (mkScript a f p) STATUS_SUCCESS) [].

Definition block (ptr size prot : Z) (own physical : bool) : MemBlock unit :=
  MemBlock_ctor tt ptr size prot own physical.

(** Three pages held at 0x10000, virtual and physical. *)
Definition held : MemBlock unit :=
  block 0x10000 0x3000 PAGE_EXECUTE_READWRITE true false.
Definition held_physical : MemBlock unit :=
  block 0x10000 0x3000 PAGE_EXECUTE_READWRITE true true.

(** A world that grants free and protect requests, one that denies them,
    one that has no memory to give, and one that denies the allocation
    request at the desired address and then places the fallback request
    at 0x1000. *)
Definition granting : World unit Script :=
  start [] STATUS_SUCCESS STATUS_SUCCESS.
Definition denying : World unit Script :=
  start [] STATUS_ACCESS_DENIED STATUS_ACCESS_DENIED.
Definition exhausted : World unit Script :=
  start [] STATUS_SUCCESS STATUS_SUCCESS.
Definition relocating : World unit Script :=
  start [(STATUS_CONFLICTING_ADDRESSES, 0); (STATUS_SUCCESS, 0x1000)]
    STATUS_SUCCESS STATUS_SUCCESS.
Definition relocating_high : World unit Script :=
  start [(STATUS_CONFLICTING_ADDRESSES, 0); (STATUS_SUCCESS, 0x770000)]
    STATUS_SUCCESS STATUS_SUCCESS.

End Mock.

(** ** Sequences of calls on one block

    What a caller does with a block between its construction and its
    destruction: any sequence of the public operations, results dropped. *)
Inductive Op : Type :=
| OpFree    (size : Z)
| OpRealloc (size desired protection : Z)
| OpProtect (protection offset size : Z) (pOld : bool)
| OpRead    (offset size : Z) (handleHoles : bool)
| OpWrite   (offset size : Z) (data : list Z)
| OpReset.

Section CallSequences.

Variable ProcessMemory : Type.
Variable Ext : Type.
Variable arch : Arch.
Variable C : Collaborators ProcessMemory Ext.

Definition perform (op : Op) : M (Obj ProcessMemory Ext) unit :=
  match op with
  | OpFree size => bind (Free arch C size) (fun _ => ret tt)
  | OpRealloc size desired protection =>
      bind (Realloc arch C size desired protection) (fun _ => ret tt)
  | OpProtect protection offset size pOld =>
      bind (Protect C protection offset size pOld) (fun _ => ret tt)
  | OpRead offset size handleHoles =>
      bind (Read C offset size handleHoles) (fun _ => ret tt)
  | OpWrite offset size data =>
      bind (Write C offset size data) (fun _ => ret tt)
  | OpReset => Reset arch C
  end.

Fixpoint perform_all (ops : list Op) : M (Obj ProcessMemory Ext) unit :=
  match ops with
  | [] => ret tt
  | op :: rest => bind (perform op) (fun _ => perform_all rest)
  end.

(** A call that a block of the given backing kind may issue: allocation
    requests and accessor calls always, driver calls only when physical. *)
Definition allowed (physical : bool) (c : Call ProcessMemory) : bool :=
  is_alloc c || to_accessor c || (physical && to_driver c).

(** The frame of a call: backing kept, ownership not gained, accessor
    kept or cleared, and only calls that the backing allows appended. *)
Definition framed (o o' : Obj ProcessMemory Ext) : Prop :=
  _physical (this o') = _physical (this o) /\
  (_own (this o') = true -> _own (this o) = true) /\
  (_memory (this o') = _memory (this o) \/ _memory (this o') = None) /\
  exists cs,
    log (world o') = log (world o) ++ cs /\
    forallb (allowed (_physical (this o))) cs = true.

(** The address range [(first, length)] that a protect request names. *)
Definition protect_range (c : Call ProcessMemory) : option (Z * Z) :=
  match c with
  | CMemProtect _ ptr size _ _ | CDrvProtect _ ptr size _ =>
      Some (ptr, size)
  | _ => None
  end.

End CallSequences.

Arguments perform {ProcessMemory Ext} arch C op _.
Arguments perform_all {ProcessMemory Ext} arch C ops _.
Arguments allowed {ProcessMemory} physical c.
Arguments protect_range {ProcessMemory} c.
Arguments framed {ProcessMemory Ext} o o'.

(** Further inputs for the scripted collaborator: a non-owning view of
    the three pages at 0x10000, some work done on a block, and the same
    work followed by a [Reset]. *)
Module MockRuns.

Definition view : MemBlock unit :=
  Mock.block 0x10000 0x3000 PAGE_EXECUTE_READWRITE false false.

Definition work : list Op :=
  [OpProtect PAGE_READONLY 0 0 true;
   OpWrite 0 4 [1; 2; 3; 4];
   OpFree 0x1000;
   OpRealloc 0x2000 0x5000 PAGE_READWRITE;
   OpRead 0 4 false].

Definition session : list Op := work ++ [OpReset].

End MockRuns.

(** * Properties *)

Section Properties.

Variable ProcessMemory : Type.
Variable Ext : Type.
Variable arch : Arch.
Variable C : Collaborators ProcessMemory Ext.

Ltac run :=
  unfold Free, Reset, Realloc, Protect, Allocate, destroy, bind, ret, self,
    memory, lift, extcall, assign, SetLastNtStatus, GetLastNtStatus; simpl.

Ltac exists_free_result :=
  match goal with
  | |- exists st o' cs, Some (?s, ?o) = Some (st, o') /\ _ =>
      exists s, o; eexists; split; [reflexivity|]; split; [reflexivity|]
  end.

(** ** Arithmetic of the aligned size *)

Lemma two_pow_size_bits : 0 < 2 ^ size_bits arch.
Proof. destruct arch; simpl; lia. Qed.

Lemma Align_0 : Align arch 0 0x1000 = 0.
Proof. destruct arch; reflexivity. Qed.

Lemma Align_range (k : Z) : in_size_t arch (Align arch k 0x1000).
Proof.
  unfold in_size_t, Align, size_wrap, wrap.
  apply Z.mod_pos_bound, two_pow_size_bits.
Qed.

Lemma size_wrap_small (n : Z) : in_size_t arch n -> size_wrap arch n = n.
Proof. unfold in_size_t, size_wrap, wrap. intros H. now apply Z.mod_small. Qed.

Lemma ptr_wrap_small (n : Z) : in_ptr_t n -> ptr_wrap n = n.
Proof. unfold in_ptr_t, ptr_wrap, wrap. intros H. now apply Z.mod_small. Qed.

(** ** What one call of [Free] does *)

Lemma Free_null (b : MemBlock ProcessMemory) (w : World ProcessMemory Ext) (size : Z) :
  _ptr b = 0 ->
  Free arch C size (mkObj b w) = Some (STATUS_SUCCESS, mkObj b w).
Proof. intros H. run. rewrite H. reflexivity. Qed.

Lemma Free_run (b : MemBlock ProcessMemory) (w : World ProcessMemory Ext) (m : ProcessMemory) (size : Z) :
  _ptr b <> 0 -> _memory b = Some m ->
  Free arch C size (mkObj b w) =
    let sz := Align arch size 0x1000 in
    let r := native_free_reply C m b sz (sys w) in
    let w' := mkWorld (snd r) (log w ++ [native_free_call C m b sz]) in
    if NT_SUCCESS (fst r) then
      Some (STATUS_SUCCESS,
            mkObj (if sz =? 0 then cleared b else advanced arch b sz) w')
    else Some (lastNt (snd r), mkObj b w').
Proof.
  intros Hp Hm. run.
  apply Z.eqb_neq in Hp. rewrite Hp. simpl. rewrite Hm.
  unfold native_free_reply, native_free_call.
  destruct (_physical b) eqn:Hph; simpl.
  - destruct (drv_FreeMem C _ _ _ _ _) as [st s']; simpl.
    destruct (NT_SUCCESS st); simpl; [|reflexivity].
    destruct (Align arch size 4096 =? 0); reflexivity.
  - destruct (mem_Free C _ _ _ _ _) as [st s']; simpl.
    destruct (NT_SUCCESS st); simpl; [|reflexivity].
    destruct (Align arch size 4096 =? 0); reflexivity.
Qed.

Lemma Free_total (b : MemBlock ProcessMemory) (w : World ProcessMemory Ext) (size : Z) :
  (_ptr b <> 0 -> exists m, _memory b = Some m) ->
  exists st o', Free arch C size (mkObj b w) = Some (st, o').
Proof.
  intros H. destruct (Z.eq_dec (_ptr b) 0) as [E|E].
  - rewrite Free_null by assumption. eauto.
  - destruct (H E) as [m Hm]. rewrite (Free_run b w m size E Hm). simpl.
    destruct (NT_SUCCESS _); eauto.
Qed.

(** ** The empty state *)

Lemma Reset_run (b : MemBlock ProcessMemory) (w : World ProcessMemory Ext) :
  (_ptr b <> 0 -> exists m, _memory b = Some m) ->
  exists st o',
    Free arch C 0 (mkObj b w) = Some (st, o') /\
    Reset arch C (mkObj b w) =
      Some (tt, mkObj (mkMemBlock 0 None 0 0 false (_physical b)) (world o')) /\
    _physical (this o') = _physical b.
Proof.
  intros H. unfold Reset, bind at 1.
  destruct (Z.eq_dec (_ptr b) 0) as [E|E].
  - rewrite Free_null by assumption.
    exists STATUS_SUCCESS, (mkObj b w). repeat split; reflexivity.
  - destruct (H E) as [m Hm]. rewrite (Free_run b w m 0 E Hm). simpl.
    rewrite Align_0. simpl.
    destruct (NT_SUCCESS _); do 2 eexists; repeat split; reflexivity.
Qed.

Lemma Allocate_denied (process : ProcessMemory) (size desired protection : Z)
    (w : World ProcessMemory Ext) :
  fst (fst (first_attempt C process size desired protection (sys w)))
    <> STATUS_SUCCESS ->
  fst (fst (fallback_attempt C process size desired protection (sys w)))
    <> STATUS_SUCCESS ->
  exists w',
    Allocate C process size desired protection w =
      Some (MemBlock_ctor process 0 size protection true false, w').
Proof.
  unfold fallback_attempt, first_attempt. intros H1 H2. run.
  destruct (VirualAllocExT C process desired _ _ _ _) as [[st1 p1] s1].
  simpl in *. apply Z.eqb_neq in H1. rewrite H1. simpl.
  destruct (VirualAllocExT C process 0 _ _ _ _) as [[st2 p2] s2].
  simpl in *. apply Z.eqb_neq in H2. rewrite H2. simpl. eauto.
Qed.

(** C1 (amended).  A block that reaches address 0 through a full [Free(0)]
    or through [Reset] has size 0 and protection 0 at that point.  A failed
    [Allocate] (both attempts denied) also returns address 0, but the size
    and protection fields of the returned block hold the requested size and
    protection. *)
Theorem C1_empty_state_after_free_and_reset
    (b : MemBlock ProcessMemory) (w : World ProcessMemory Ext)
    (process : ProcessMemory) (size desired protection : Z)
    (w0 : World ProcessMemory Ext) :
  (_ptr b <> 0 -> exists m, _memory b = Some m) ->
  fst (fst (first_attempt C process size desired protection (sys w0)))
    <> STATUS_SUCCESS ->
  fst (fst (fallback_attempt C process size desired protection (sys w0)))
    <> STATUS_SUCCESS ->
  (exists st o',
     Free arch C 0 (mkObj b w) = Some (st, o') /\
     (_ptr b <> 0 -> _ptr (this o') = 0 -> is_empty (this o'))) /\
  (exists o',
     Reset arch C (mkObj b w) = Some (tt, o') /\ is_empty (this o')) /\
  (exists b' w',
     Allocate C process size desired protection w0 = Some (b', w') /\
     _ptr b' = 0 /\ _size b' = size /\ _protection b' = protection).
Proof.
  intros Hm H1 H2. split; [|split].
  - destruct (Z.eq_dec (_ptr b) 0) as [E|E].
    + rewrite Free_null by assumption. do 2 eexists. split; [reflexivity|].
      intros; contradiction.
    + destruct (Hm E) as [m Hmem]. rewrite (Free_run b w m 0 E Hmem).
      simpl. rewrite Align_0. simpl.
      destruct (NT_SUCCESS _); do 2 eexists; (split; [reflexivity|]); simpl.
      * intros _ _. repeat split.
      * intros _ Hz. contradiction.
  - destruct (Reset_run b w Hm) as (st & o' & _ & HR & _).
    eexists. split; [exact HR|]. repeat split.
  - destruct (Allocate_denied process size desired protection w0 H1 H2)
      as [w' Hw].
    do 2 eexists. split; [exact Hw|]. repeat split.
Qed.

(** ** Allocation fallback *)

(** C2 (amended).  When the attempt at the desired address is denied and the
    fallback attempt at address 0 succeeds, [Allocate] has made exactly these
    two requests, returns an owning, virtual block at the address that the
    fallback settled on, with the requested size and protection, and leaves
    the relocation notice in the last-status slot.  The block is valid when
    that address is not 0; nothing relates it to the desired address. *)
Theorem C2_allocate_fallback
    (process : ProcessMemory) (size desired protection : Z)
    (w : World ProcessMemory Ext) :
  fst (fst (first_attempt C process size desired protection (sys w)))
    <> STATUS_SUCCESS ->
  fst (fst (fallback_attempt C process size desired protection (sys w)))
    = STATUS_SUCCESS ->
  let p := snd (fst (fallback_attempt C process size desired protection (sys w))) in
  let newProt := CastProtection C protection (core_DEP C process) in
  exists w',
    Allocate C process size desired protection w =
      Some (MemBlock_ctor process p size protection true false, w') /\
    log w' = log w ++ [CAlloc process desired size MEM_COMMIT newProt;
                       CAlloc process 0 size MEM_COMMIT newProt] /\
    lastNt (sys w') = STATUS_IMAGE_NOT_AT_BASE /\
    (p <> 0 ->
     valid (MemBlock_ctor process p size protection true false) = true).
Proof.
  unfold fallback_attempt, first_attempt. intros H1 H2. run.
  destruct (VirualAllocExT C process desired _ _ _ _) as [[st1 p1] s1].
  simpl in *. apply Z.eqb_neq in H1. rewrite H1. simpl.
  destruct (VirualAllocExT C process 0 _ _ _ _) as [[st2 p2] s2].
  simpl in *. subst st2. simpl.
  eexists. split; [reflexivity|]. simpl. repeat split.
  - rewrite <- app_assoc. reflexivity.
  - intros Hp. unfold valid. simpl. apply Z.eqb_neq in Hp. now rewrite Hp.
Qed.

(** ** Failure of the native free *)

(** C7.  When the collaborator answers a [Free] request with a non-success
    status, the block is left exactly as it was, and the value returned is
    the one read from the last-status slot after the collaborator's call. *)
Theorem C7_free_failure_leaves_block
    (b : MemBlock ProcessMemory) (w : World ProcessMemory Ext)
    (m : ProcessMemory) (size : Z) :
  _ptr b <> 0 -> _memory b = Some m ->
  NT_SUCCESS (fst (native_free_reply C m b (Align arch size 0x1000) (sys w)))
    = false ->
  exists o',
    Free arch C size (mkObj b w) = Some (lastNt (sys (world o')), o') /\
    this o' = b /\
    sys (world o') =
      snd (native_free_reply C m b (Align arch size 0x1000) (sys w)).
Proof.
  intros Hp Hm Hf. rewrite (Free_run b w m size Hp Hm). simpl.
  rewrite Hf.
  exists (mkObj b (mkWorld
            (snd (native_free_reply C m b (Align arch size 0x1000) (sys w)))
            (log w ++ [native_free_call C m b (Align arch size 0x1000)]))).
  repeat split.
Qed.

(** ** Partial free: the shrinking window *)

(** C3 (amended).  For a non-empty block of size [S] and a request whose
    page-rounded size [r] satisfies [0 < r <= S], a [Free] that the
    collaborator accepts returns success, moves the address to
    [address + r] (modulo 2^64), leaves [S - r] as size and keeps the
    protection.  When [r < S] the remaining size is positive.  When the
    advanced address does not wrap it is not 0, so the block is not in the
    empty state, also when the remaining size has reached 0. *)
Theorem C3_partial_free_shrinks
    (b : MemBlock ProcessMemory) (w : World ProcessMemory Ext)
    (m : ProcessMemory) (k : Z) :
  _ptr b <> 0 -> _memory b = Some m ->
  in_size_t arch (_size b) ->
  0 < Align arch k 0x1000 <= _size b ->
  NT_SUCCESS (fst (native_free_reply C m b (Align arch k 0x1000) (sys w)))
    = true ->
  let r := Align arch k 0x1000 in
  exists o',
    Free arch C k (mkObj b w) = Some (STATUS_SUCCESS, o') /\
    _ptr (this o') = ptr_wrap (_ptr b + r) /\
    _size (this o') = _size b - r /\
    _protection (this o') = _protection b /\
    (r < _size b -> 0 < _size (this o')) /\
    (in_ptr_t (_ptr b) -> _ptr b + r < 2 ^ 64 ->
     _ptr (this o') = _ptr b + r /\ ~ is_empty (this o')).
Proof.
  intros Hp Hm HS Hr Hok r. rewrite (Free_run b w m k Hp Hm). simpl.
  rewrite Hok. fold r in Hr |- *.
  assert (Hnz : (r =? 0) = false) by (apply Z.eqb_neq; lia).
  rewrite Hnz. eexists. split; [reflexivity|]. simpl.
  assert (Hsz : size_wrap arch (_size b - r) = _size b - r).
  { apply size_wrap_small. unfold in_size_t in *. lia. }
  assert (Hpw : in_ptr_t (_ptr b) -> _ptr b + r < 2 ^ 64 ->
                ptr_wrap (_ptr b + r) = _ptr b + r).
  { intros Hin Hlt. apply ptr_wrap_small. unfold in_ptr_t in *. lia. }
  split; [reflexivity|]. split; [exact Hsz|]. split; [reflexivity|].
  split; [lia|]. intros Hin Hlt. split; [now apply Hpw|].
  unfold is_empty. simpl. rewrite (Hpw Hin Hlt).
  unfold in_ptr_t in Hin. lia.
Qed.

(** ** Mode of the native free *)

(** C4 (amended).  A [Free] on a non-empty block issues exactly one native
    free at the block's address with the page-rounded size [r].  On a
    virtual block the request goes to the accessor in decommit mode when
    [r] is not 0 and in release mode, with size 0, when [r] is 0.  On a
    physical block the request goes to the driver in release mode whatever
    [r] is. *)
Theorem C4_free_mode
    (b : MemBlock ProcessMemory) (w : World ProcessMemory Ext)
    (m : ProcessMemory) (size : Z) :
  _ptr b <> 0 -> _memory b = Some m ->
  let r := Align arch size 0x1000 in
  exists st o',
    Free arch C size (mkObj b w) = Some (st, o') /\
    log (world o') = log w ++
      [if _physical b then CDrvFree (core_pid C m) (_ptr b) r MEM_RELEASE
       else if r =? 0 then CMemFree m (_ptr b) 0 MEM_RELEASE
       else CMemFree m (_ptr b) r MEM_DECOMMIT].
Proof.
  intros Hp Hm r. rewrite (Free_run b w m size Hp Hm). simpl. fold r.
  assert (Hc : native_free_call C m b r =
               if _physical b then CDrvFree (core_pid C m) (_ptr b) r MEM_RELEASE
               else if r =? 0 then CMemFree m (_ptr b) 0 MEM_RELEASE
               else CMemFree m (_ptr b) r MEM_DECOMMIT).
  { unfold native_free_call. destruct (_physical b); [reflexivity|].
    destruct (Z.eqb_spec r 0) as [E|E]; [rewrite E|]; reflexivity. }
  rewrite <- Hc.
  destruct (NT_SUCCESS _); do 2 eexists; split; reflexivity.
Qed.

(** ** Full free twice *)

(** C8 (amended).  On a block whose address is not 0, a first [Free(0)]
    that the collaborator accepts leaves the block empty.  On a block
    whose address is already 0 the first [Free(0)] returns success without
    touching the block, whatever its size and protection fields hold.  In
    both cases the second [Free(0)] returns success and changes neither
    the block nor the world: no call is added to the log. *)
Theorem C8_full_free_twice
    (b : MemBlock ProcessMemory) (w : World ProcessMemory Ext)
    (m : ProcessMemory) :
  (_ptr b <> 0 -> _memory b = Some m) ->
  (_ptr b <> 0 ->
   NT_SUCCESS (fst (native_free_reply C m b 0 (sys w))) = true) ->
  exists o1 o2,
    Free arch C 0 (mkObj b w) = Some (STATUS_SUCCESS, o1) /\
    _ptr (this o1) = 0 /\
    (_ptr b <> 0 ->
     is_empty (this o1) /\
     log (world o1) = log w ++ [native_free_call C m b 0]) /\
    (_ptr b = 0 -> o1 = mkObj b w) /\
    Free arch C 0 o1 = Some (STATUS_SUCCESS, o2) /\
    log (world o2) = log (world o1) /\
    o2 = o1.
Proof.
  intros Hm Hok. destruct (Z.eq_dec (_ptr b) 0) as [E|E].
  - exists (mkObj b w), (mkObj b w).
    rewrite Free_null by assumption. repeat split; auto; contradiction.
  - rewrite (Free_run b w m 0 E (Hm E)). simpl. rewrite Align_0.
    rewrite (Hok E). simpl.
    do 2 eexists. split; [reflexivity|]. split; [reflexivity|].
    split; [intros _; repeat split|]. split; [intros; contradiction|].
    rewrite Free_null by reflexivity. auto.
Qed.

(** ** Dispatch on the backing kind *)

Lemma Protect_run (b : MemBlock ProcessMemory) (w : World ProcessMemory Ext)
    (m : ProcessMemory) (protection offset size : Z) (pOld : bool) :
  _memory b = Some m ->
  exists r s',
    Protect C protection offset size pOld (mkObj b w) =
      Some (r, mkObj b (mkWorld s' (log w ++
        [let prot := CastProtection C protection (core_DEP C m) in
         let sz := if size =? 0 then _size b else size in
         let p := ptr_wrap (_ptr b + offset) in
         if _physical b then CDrvProtect (core_pid C m) p sz prot
         else CMemProtect m p sz prot pOld]))).
Proof.
  intros Hm. run. rewrite Hm. simpl. destruct (_physical b); simpl.
  - destruct (drv_ProtectMem C _ _ _ _ (sys w)) as [st s']. simpl. eauto.
  - destruct (mem_Protect C _ _ _ _ (sys w)) as [[st old] s']. simpl. eauto.
Qed.


(** ** Protect and the descriptor *)

(** C6 (amended).  [Protect] never writes to the descriptor: whatever the
    target range and whatever status the collaborator returns, the block
    has the same protection field, and the same other fields, after the
    call as before. *)
Theorem C6_protect_keeps_descriptor
    (b : MemBlock ProcessMemory) (w : World ProcessMemory Ext)
    (m : ProcessMemory) (protection offset size : Z) (pOld : bool) :
  _memory b = Some m ->
  exists r o',
    Protect C protection offset size pOld (mkObj b w) = Some (r, o') /\
    _protection (this o') = _protection b /\
    this o' = b.
Proof.
  intros Hm.
  destruct (Protect_run b w m protection offset size pOld Hm) as (r & s' & HP).
  do 2 eexists. split; [exact HP|]. split; reflexivity.
Qed.

(** ** Reset *)

(** C10.  [Reset] returns nothing and always leaves the descriptor at
    address 0, size 0, protection 0, not owning and without accessor,
    whatever status the native free returned.  On a non-empty block the
    release was requested once; its status is not looked at, so the block
    after a denied release equals the block after a granted one. *)
Theorem C10_reset_always_empties
    (b : MemBlock ProcessMemory) (w : World ProcessMemory Ext) :
  (_ptr b <> 0 -> exists m, _memory b = Some m) ->
  exists o',
    Reset arch C (mkObj b w) = Some (tt, o') /\
    this o' = mkMemBlock 0 None 0 0 false (_physical b) /\
    (forall m, _ptr b <> 0 -> _memory b = Some m ->
       log (world o') = log w ++ [native_free_call C m b 0] /\
       sys (world o') = snd (native_free_reply C m b 0 (sys w))).
Proof.
  intros H. unfold Reset, bind at 1.
  destruct (Z.eq_dec (_ptr b) 0) as [E|E].
  - rewrite Free_null by assumption. eexists. split; [reflexivity|].
    split; [reflexivity|]. intros; contradiction.
  - destruct (H E) as [m Hm]. rewrite (Free_run b w m 0 E Hm). simpl.
    rewrite Align_0. simpl.
    destruct (NT_SUCCESS _); (eexists; split; [reflexivity|]);
      (split; [reflexivity|]); intros m' _ Hm'; simpl;
      assert (m' = m) by congruence; subst m'; split; reflexivity.
Qed.

(** ** Realloc *)

Lemma Free_log (b : MemBlock ProcessMemory) (w : World ProcessMemory Ext)
    (m : ProcessMemory) (size : Z) :
  _memory b = Some m ->
  exists st b' s',
    Free arch C size (mkObj b w) =
      Some (st, mkObj b' (mkWorld s' (log w ++
        if _ptr b =? 0 then []
        else [native_free_call C m b (Align arch size 0x1000)]))) /\
    _memory b' = _memory b /\ _own b' = _own b /\ _physical b' = _physical b.
Proof.
  intros Hm. destruct (Z.eqb_spec (_ptr b) 0) as [E|E].
  - rewrite Free_null by assumption. rewrite app_nil_r.
    exists STATUS_SUCCESS, b, (sys w). destruct w; auto.
  - rewrite (Free_run b w m size E Hm). simpl.
    destruct (NT_SUCCESS _); [|do 3 eexists; split; [reflexivity|auto]].
    destruct (Align arch size 4096 =? 0);
      do 3 eexists; (split; [reflexivity|auto]).
Qed.

Lemma Free0_exact (b : MemBlock ProcessMemory) (w : World ProcessMemory Ext)
    (m : ProcessMemory) :
  _memory b = Some m ->
  exists st b',
    Free arch C 0 (mkObj b w) =
      Some (st, mkObj b'
        (mkWorld
           (if _ptr b =? 0 then sys w
            else snd (native_free_reply C m b 0 (sys w)))
           (log w ++ if _ptr b =? 0 then []
                     else [native_free_call C m b 0]))) /\
    _memory b' = _memory b /\ _own b' = _own b /\ _physical b' = _physical b.
Proof.
  intros Hm. destruct (Z.eqb_spec (_ptr b) 0) as [E|E].
  - rewrite Free_null by assumption. rewrite app_nil_r.
    exists STATUS_SUCCESS, b. destruct w; auto.
  - rewrite (Free_run b w m 0 E Hm). simpl. rewrite Align_0. simpl.
    destruct (NT_SUCCESS _); do 2 eexists; (split; [reflexivity|auto]).
Qed.


End Properties.

(** * The operations on explicit inputs *)

Ltac computed := vm_compute; try reflexivity; try discriminate; try lia.

(** ** The empty state (C1) *)

(** With no memory to give, both attempts of [Allocate] are denied; the
    block that comes back has address 0, yet its size is 0x2000 and its
    protection 0x40: it is not in the empty state. *)
Lemma C1_failed_allocate_not_empty :
  fst (fst (first_attempt Mock.collab tt 0x2000 0x1000 0x40 (sys Mock.exhausted)))
    = Mock.STATUS_NO_MEMORY /\
  fst (fst (fallback_attempt Mock.collab tt 0x2000 0x1000 0x40 (sys Mock.exhausted)))
    = Mock.STATUS_NO_MEMORY /\
  exists b' w',
    Allocate Mock.collab tt 0x2000 0x1000 0x40 Mock.exhausted = Some (b', w') /\
    _ptr b' = 0 /\ _size b' = 0x2000 /\ _protection b' = 0x40 /\
    ~ (_size b' = 0 /\ _protection b' = 0).
Proof.
  split; [reflexivity|]. split; [reflexivity|].
  do 2 eexists. split; [vm_compute; reflexivity|]. simpl.
  repeat split. intros [H _]. discriminate H.
Qed.

Lemma C1_witness :
  (exists st o',
     Free X64 Mock.collab 0 (mkObj Mock.held Mock.granting) = Some (st, o') /\
     (_ptr Mock.held <> 0 -> _ptr (this o') = 0 -> is_empty (this o'))) /\
  (exists o',
     Reset X64 Mock.collab (mkObj Mock.held Mock.granting) = Some (tt, o') /\
     is_empty (this o')) /\
  (exists b' w',
     Allocate Mock.collab tt 0x2000 0x1000 0x40 Mock.exhausted = Some (b', w') /\
     _ptr b' = 0 /\ _size b' = 0x2000 /\ _protection b' = 0x40).
Proof.
  apply (C1_empty_state_after_free_and_reset unit Mock.Script X64 Mock.collab
           Mock.held Mock.granting tt 0x2000 0x1000 0x40 Mock.exhausted).
  - intros _. exists tt. reflexivity.
  - computed.
  - computed.
Defined.

(** ** Allocation fallback (C2) *)

(** The request at 0x1000 is denied, the fallback request is granted, and
    the system places it at 0x1000: the block that [Allocate] returns sits
    at the desired address, with the relocation notice recorded. *)
Lemma C2_fallback_may_land_on_desired :
  fst (fst (first_attempt Mock.collab tt 0x2000 0x1000 0x40 (sys Mock.relocating)))
    <> STATUS_SUCCESS /\
  fst (fst (fallback_attempt Mock.collab tt 0x2000 0x1000 0x40 (sys Mock.relocating)))
    = STATUS_SUCCESS /\
  exists b' w',
    Allocate Mock.collab tt 0x2000 0x1000 0x40 Mock.relocating = Some (b', w') /\
    valid b' = true /\
    lastNt (sys w') = STATUS_IMAGE_NOT_AT_BASE /\
    _ptr b' = 0x1000.
Proof.
  split; [computed|]. split; [reflexivity|].
  do 2 eexists. split; [vm_compute; reflexivity|]. repeat split.
Qed.

Lemma C2_witness :
  exists w',
    Allocate Mock.collab tt 0x2000 0x1000 0x40 Mock.relocating_high =
      Some (MemBlock_ctor tt 0x770000 0x2000 0x40 true false, w') /\
    log w' = [CAlloc tt 0x1000 0x2000 MEM_COMMIT 0x40;
              CAlloc tt 0 0x2000 MEM_COMMIT 0x40] /\
    lastNt (sys w') = STATUS_IMAGE_NOT_AT_BASE /\
    (0x770000 <> 0 ->
     valid (MemBlock_ctor tt 0x770000 0x2000 0x40 true false) = true).
Proof.
  apply (C2_allocate_fallback unit Mock.Script Mock.collab
           tt 0x2000 0x1000 0x40 Mock.relocating_high).
  - computed.
  - computed.
Defined.

(** ** Partial free (C3) *)

(** Two partial frees of one page each on a block of two pages: the second
    leaves size 0, but the address is 0x12000 and the protection is still
    0x40, which is not the empty state. *)
Lemma C3_partial_frees_do_not_empty :
  exists o1 o2,
    Free X64 Mock.collab 0x1000
      (mkObj (Mock.block 0x10000 0x2000 0x40 true false) Mock.granting)
      = Some (STATUS_SUCCESS, o1) /\
    Free X64 Mock.collab 0x1000 o1 = Some (STATUS_SUCCESS, o2) /\
    _size (this o2) = 0 /\
    _ptr (this o2) = 0x12000 /\ _protection (this o2) = 0x40 /\
    ~ is_empty (this o2).
Proof.
  do 2 eexists. split; [vm_compute; reflexivity|].
  split; [vm_compute; reflexivity|]. simpl. repeat split.
  intros [H _]. discriminate H.
Qed.

Lemma C3_witness :
  exists o',
    Free X64 Mock.collab 1 (mkObj Mock.held Mock.granting)
      = Some (STATUS_SUCCESS, o') /\
    _ptr (this o') = ptr_wrap (0x10000 + 0x1000) /\
    _size (this o') = 0x3000 - 0x1000 /\
    _protection (this o') = 0x40 /\
    (0x1000 < 0x3000 -> 0 < _size (this o')) /\
    (in_ptr_t 0x10000 -> 0x10000 + 0x1000 < 2 ^ 64 ->
     _ptr (this o') = 0x10000 + 0x1000 /\ ~ is_empty (this o')).
Proof.
  apply (C3_partial_free_shrinks unit Mock.Script X64 Mock.collab
           Mock.held Mock.granting tt 1).
  - computed.
  - reflexivity.
  - vm_compute. split; [discriminate | reflexivity].
  - vm_compute. split; [reflexivity | discriminate].
  - reflexivity.
Defined.

(** ** Mode of the native free (C4) *)

(** A partial free of one page on a physical block reaches the driver in
    release mode, not in decommit mode. *)
Lemma C4_physical_partial_free_releases :
  exists st o',
    Free X64 Mock.collab 0x1000 (mkObj Mock.held_physical Mock.granting)
      = Some (st, o') /\
    log (world o') = [CDrvFree 4242 0x10000 0x1000 MEM_RELEASE] /\
    MEM_RELEASE <> MEM_DECOMMIT.
Proof.
  do 2 eexists. split; [vm_compute; reflexivity|]. split; [reflexivity|].
  discriminate.
Qed.

Lemma C4_witness :
  exists st o',
    Free X64 Mock.collab 0x1001 (mkObj Mock.held Mock.granting) = Some (st, o') /\
    log (world o') = [CMemFree tt 0x10000 0x2000 MEM_DECOMMIT].
Proof.
  apply (C4_free_mode unit Mock.Script X64 Mock.collab
           Mock.held Mock.granting tt 0x1001).
  - computed.
  - reflexivity.
Defined.

(** ** Realloc (C5) *)

(** No memory to give: the block keeps its region and 0 is returned. *)
Example Realloc_denied :
  Realloc X64 Mock.collab 0x2000 0x5000 PAGE_READWRITE
    (mkObj Mock.held Mock.exhausted)
  = Some (0, mkObj Mock.held
               (mkWorld (mkSys (Mock.mkScript [] 0 0) Mock.STATUS_NO_MEMORY)
                  [CAlloc tt 0x5000 0x2000 MEM_COMMIT PAGE_READWRITE;
                   CAlloc tt 0 0x2000 MEM_COMMIT PAGE_READWRITE])).
Proof. reflexivity. Qed.



(** ** Protect (C6) *)

(** A granted [Protect] to read-only over the whole block: the protection
    field still says execute-read-write. *)
Lemma C6_whole_block_protect_keeps_field :
  exists r o',
    Protect Mock.collab PAGE_READONLY 0 0 false
      (mkObj Mock.held Mock.granting) = Some (r, o') /\
    fst r = STATUS_SUCCESS /\
    log (world o') = [CMemProtect tt 0x10000 0x3000 PAGE_READONLY false] /\
    _protection (this o') = PAGE_EXECUTE_READWRITE /\
    _protection (this o') <> PAGE_READONLY.
Proof.
  do 2 eexists. split; [vm_compute; reflexivity|]. simpl.
  repeat split. discriminate.
Qed.

Lemma C6_witness :
  exists r o',
    Protect Mock.collab PAGE_READONLY 0x1000 0x1000 true
      (mkObj Mock.held Mock.granting) = Some (r, o') /\
    _protection (this o') = PAGE_EXECUTE_READWRITE /\
    this o' = Mock.held.
Proof.
  apply (C6_protect_keeps_descriptor unit Mock.Script Mock.collab
           Mock.held Mock.granting tt PAGE_READONLY 0x1000 0x1000 true).
  reflexivity.
Defined.

(** ** Failure of the native free (C7) *)

Lemma C7_witness :
  exists o',
    Free X64 Mock.collab 0x1000 (mkObj Mock.held_physical Mock.denying)
      = Some (lastNt (sys (world o')), o') /\
    this o' = Mock.held_physical /\
    sys (world o') =
      mkSys (Mock.mkScript [] Mock.STATUS_ACCESS_DENIED Mock.STATUS_ACCESS_DENIED)
        Mock.STATUS_ACCESS_DENIED.
Proof.
  apply (C7_free_failure_leaves_block unit Mock.Script X64 Mock.collab
           Mock.held_physical Mock.denying tt 0x1000).
  - computed.
  - reflexivity.
  - reflexivity.
Defined.

(** ** Full free twice (C8) *)

(** The block that a failed [Allocate] returns has address 0, size 0x2000
    and protection 0x40.  [Free(0)] on it succeeds twice, calls no
    collaborator, and the block is not empty after the first call. *)
Lemma C8_address_zero_block_not_emptied :
  exists b' w' o1 o2,
    Allocate Mock.collab tt 0x2000 0x1000 0x40 Mock.exhausted = Some (b', w') /\
    Free X64 Mock.collab 0 (mkObj b' w') = Some (STATUS_SUCCESS, o1) /\
    ~ is_empty (this o1) /\
    _size (this o1) = 0x2000 /\ _protection (this o1) = 0x40 /\
    Free X64 Mock.collab 0 o1 = Some (STATUS_SUCCESS, o2) /\
    log (world o2) = log w'.
Proof.
  do 4 eexists. split; [vm_compute; reflexivity|].
  split; [vm_compute; reflexivity|]. simpl.
  split; [intros (_ & H & _); discriminate H|].
  split; [reflexivity|]. split; [reflexivity|].
  split; [vm_compute; reflexivity|]. reflexivity.
Qed.

Lemma C8_witness :
  exists o1 o2,
    Free X64 Mock.collab 0 (mkObj Mock.held Mock.granting)
      = Some (STATUS_SUCCESS, o1) /\
    _ptr (this o1) = 0 /\
    (_ptr Mock.held <> 0 ->
     is_empty (this o1) /\
     log (world o1) = [] ++ [CMemFree tt 0x10000 0 MEM_RELEASE]) /\
    (_ptr Mock.held = 0 -> o1 = mkObj Mock.held Mock.granting) /\
    Free X64 Mock.collab 0 o1 = Some (STATUS_SUCCESS, o2) /\
    log (world o2) = log (world o1) /\
    o2 = o1.
Proof.
  apply (C8_full_free_twice unit Mock.Script X64 Mock.collab
           Mock.held Mock.granting tt).
  - intros _. reflexivity.
  - intros _. reflexivity.
Defined.

(** ** Dispatch on the backing kind (C9) *)


(** ** Reset (C10) *)

(** The release is denied, and the block that [Reset] leaves is the same
    as after a granted release. *)
Example Reset_after_denied_release :
  option_map (fun r => this (snd r))
    (Reset X64 Mock.collab (mkObj Mock.held Mock.denying))
  = option_map (fun r => this (snd r))
      (Reset X64 Mock.collab (mkObj Mock.held Mock.granting)).
Proof. reflexivity. Qed.

Lemma C10_witness :
  exists o',
    Reset X64 Mock.collab (mkObj Mock.held Mock.denying) = Some (tt, o') /\
    this o' = mkMemBlock 0 None 0 0 false false /\
    (forall m, _ptr Mock.held <> 0 -> _memory Mock.held = Some m ->
       log (world o') = [] ++ [native_free_call Mock.collab m Mock.held 0] /\
       sys (world o') =
         snd (native_free_reply Mock.collab m Mock.held 0 (sys Mock.denying))).
Proof.
  apply (C10_reset_always_empties unit Mock.Script X64 Mock.collab
           Mock.held Mock.denying).
  intros _. exists tt. reflexivity.
Defined.

(** * Further properties of the operations *)

Ltac step_ops :=
  unfold Free, Reset, Realloc, Protect, Read, Write, Allocate, destroy, bind,
    ret, self, memory, lift, extcall, assign, SetLastNtStatus,
    GetLastNtStatus; simpl.

Section Lifetime.

Variable ProcessMemory : Type.
Variable Ext : Type.
Variable arch : Arch.
Variable C : Collaborators ProcessMemory Ext.

(** ** The destructor *)

(** Destroying a block that does not own its region calls no
    collaborator and changes nothing, whatever the address and also when
    the accessor pointer is null. *)
Theorem destroy_non_owning
    (b : MemBlock ProcessMemory) (w : World ProcessMemory Ext) :
  _own b = false ->
  destroy arch C (mkObj b w) = Some (tt, mkObj b w).
Proof. intros H. unfold destroy, bind, self. simpl. now rewrite H. Qed.

(** X1.  Destroying an owning, non-empty block issues exactly one request:
    a release (size 0, release mode) of the block's address, to the driver
    for a physical block and to the accessor for a virtual one.  The
    status is dropped; the descriptor is emptied when the release was
    granted and untouched when it was denied. *)
Theorem destroy_owning_releases_once
    (b : MemBlock ProcessMemory) (w : World ProcessMemory Ext)
    (m : ProcessMemory) :
  _own b = true -> _ptr b <> 0 -> _memory b = Some m ->
  let reply := native_free_reply C m b 0 (sys w) in
  exists o',
    destroy arch C (mkObj b w) = Some (tt, o') /\
    log (world o') = log w ++
      [if _physical b then CDrvFree (core_pid C m) (_ptr b) 0 MEM_RELEASE
       else CMemFree m (_ptr b) 0 MEM_RELEASE] /\
    sys (world o') = snd reply /\
    this o' = if NT_SUCCESS (fst reply) then cleared b else b.
Proof.
  intros Ho Hp Hm reply. unfold destroy, bind at 1, self. simpl. rewrite Ho.
  unfold bind. rewrite (Free_run _ _ arch C b w m 0 Hp Hm). simpl.
  rewrite Align_0. fold reply. unfold native_free_call. simpl.
  destruct (NT_SUCCESS (fst reply));
    (eexists; split; [reflexivity|]); simpl; repeat split.
Qed.

(** ** After Reset *)

(** X2.  Once [Reset] has run, the block is inert: a further [Reset], a
    [Free] of any size and the destructor all return without calling a
    collaborator and without changing the block or the world. *)
Theorem reset_leaves_block_inert
    (b : MemBlock ProcessMemory) (w : World ProcessMemory Ext) (size : Z) :
  (_ptr b <> 0 -> exists m, _memory b = Some m) ->
  exists o1,
    Reset arch C (mkObj b w) = Some (tt, o1) /\
    Reset arch C o1 = Some (tt, o1) /\
    Free arch C size o1 = Some (STATUS_SUCCESS, o1) /\
    destroy arch C o1 = Some (tt, o1).
Proof.
  intros H.
  destruct (Reset_run _ _ arch C b w H) as (st & o & _ & HR & _).
  eexists. split; [exact HR|]. repeat split.
Qed.

(** X3.  After [Reset] the accessor pointer is null: [Realloc], [Protect],
    [Read] and [Write] on the block dereference it. *)
Theorem reset_then_use_dereferences_null
    (b : MemBlock ProcessMemory) (w : World ProcessMemory Ext)
    (size desired protection offset : Z) (flag : bool) (data : list Z) :
  (_ptr b <> 0 -> exists m, _memory b = Some m) ->
  exists o1,
    Reset arch C (mkObj b w) = Some (tt, o1) /\
    Realloc arch C size desired protection o1 = None /\
    Protect C protection offset size flag o1 = None /\
    Read C offset size flag o1 = None /\
    Write C offset size data o1 = None.
Proof.
  intros H.
  destruct (Reset_run _ _ arch C b w H) as (st & o & _ & HR & _).
  eexists. split; [exact HR|]. repeat split.
Qed.

(** ** Allocate *)

(** X4.  When the request at the desired address is answered with
    [STATUS_SUCCESS], [Allocate] makes no second request and writes
    nothing to the last-status slot: the world is as that one call left
    it, and the block sits at the address the call handed back. *)
Theorem allocate_at_desired
    (process : ProcessMemory) (size desired protection : Z)
    (w : World ProcessMemory Ext) :
  fst (fst (first_attempt C process size desired protection (sys w)))
    = STATUS_SUCCESS ->
  let r := first_attempt C process size desired protection (sys w) in
  Allocate C process size desired protection w =
    Some (MemBlock_ctor process (snd (fst r)) size protection true false,
          mkWorld (snd r)
            (log w ++ [CAlloc process desired size MEM_COMMIT
                         (CastProtection C protection (core_DEP C process))])).
Proof.
  unfold first_attempt. intros H. step_ops.
  destruct (VirualAllocExT C process desired _ _ _ _) as [[st1 p1] s1].
  simpl in *. subst st1. reflexivity.
Qed.

(** X5.  [Allocate] always returns a block that owns its region, is
    virtual, is bound to the given process and records the requested size
    and the protection as the caller gave it, while every native request
    carries the protection translated by [CastProtection].  It makes one
    request at the desired address, or that one followed by one at
    address 0, and no other call. *)
Theorem allocate_frame
    (process : ProcessMemory) (size desired protection : Z)
    (w : World ProcessMemory Ext) :
  let newProt := CastProtection C protection (core_DEP C process) in
  exists b' w' requests,
    Allocate C process size desired protection w = Some (b', w') /\
    _memory b' = Some process /\ _size b' = size /\
    _protection b' = protection /\ _own b' = true /\ _physical b' = false /\
    log w' = log w ++ requests /\
    (requests = [CAlloc process desired size MEM_COMMIT newProt] \/
     requests = [CAlloc process desired size MEM_COMMIT newProt;
                 CAlloc process 0 size MEM_COMMIT newProt]).
Proof.
  intros newProt. step_ops. fold newProt.
  destruct (VirualAllocExT C process desired _ _ _ _) as [[st1 p1] s1].
  simpl. destruct (st1 =? STATUS_SUCCESS); simpl.
  - do 3 eexists. split; [reflexivity|]. simpl. repeat split. now left.
  - destruct (VirualAllocExT C process 0 _ _ _ _) as [[st2 p2] s2].
    simpl. destruct (st2 =? STATUS_SUCCESS); simpl;
      (do 3 eexists; split; [reflexivity|]; simpl; repeat split;
       [rewrite <- app_assoc; reflexivity | now right]).
Qed.

End Lifetime.

Section Requests.

Variable ProcessMemory : Type.
Variable Ext : Type.
Variable arch : Arch.
Variable C : Collaborators ProcessMemory Ext.

(** ** Realloc *)

Lemma Realloc_run (b : MemBlock ProcessMemory) (w : World ProcessMemory Ext)
    (m : ProcessMemory) (size desired protection : Z) :
  _memory b = Some m ->
  let r1 := VirualAllocExT C m desired size MEM_COMMIT protection (sys w) in
  let q := realloc_address C m size desired protection (sys w) in
  exists o',
    Realloc arch C size desired protection (mkObj b w) = Some (q, o') /\
    this o' = (if q =? 0 then b
               else mkMemBlock q (_memory b) size protection
                      (_own b) (_physical b)) /\
    log (world o') = log w ++
      CAlloc m desired size MEM_COMMIT protection ::
      (if snd (fst r1) =? 0 then [CAlloc m 0 size MEM_COMMIT protection]
       else []) ++
      (if (q =? 0) || (_ptr b =? 0) then []
       else [native_free_call C m b 0]).
Proof.
  intros Hm r1 q. unfold q, r1, realloc_address.
  unfold Realloc, bind, memory, lift, extcall, ret, assign, SetLastNtStatus.
  simpl. rewrite Hm. simpl.
  destruct (VirualAllocExT C m desired size MEM_COMMIT protection (sys w))
    as [[st1 p1] s1]. simpl.
  destruct (Z.eqb_spec p1 0) as [E1|E1]; simpl.
  - destruct (VirualAllocExT C m 0 size MEM_COMMIT protection s1)
      as [[st2 p2] s2]. simpl.
    destruct (Z.eqb_spec p2 0) as [E2|E2]; simpl.
    + subst p2. simpl.
      eexists. split; [reflexivity|]. simpl. split; [reflexivity|].
      now rewrite <- app_assoc.
    + apply Z.eqb_neq in E2. rewrite E2. simpl.
      match goal with |- context [Free arch C 0 (mkObj b ?w1)] =>
        destruct (Free_log _ _ arch C b w1 m 0 Hm)
          as (st & b' & s' & HF & Hb1 & Hb2 & Hb3)
      end.
      rewrite HF. simpl. rewrite Align_0.
      eexists. split; [reflexivity|].
      unfold set_protection, set_size, set_ptr. simpl.
      rewrite Hb1, Hb2, Hb3, ?Hm. split; [reflexivity|].
      rewrite <- !app_assoc. simpl. reflexivity.
  - apply Z.eqb_neq in E1. rewrite E1. simpl.
    match goal with |- context [Free arch C 0 (mkObj b ?w1)] =>
      destruct (Free_log _ _ arch C b w1 m 0 Hm)
        as (st & b' & s' & HF & Hb1 & Hb2 & Hb3)
    end.
    rewrite HF. simpl. rewrite Align_0.
    eexists. split; [reflexivity|].
    unfold set_protection, set_size, set_ptr. simpl.
    rewrite Hb1, Hb2, Hb3, ?Hm. split; [reflexivity|].
    rewrite <- !app_assoc. simpl. reflexivity.
Qed.

(** X6.  [Realloc] decides on the address alone: it asks for the desired
    address first and asks again, at address 0, exactly when the first call
    handed back address 0, whatever the statuses were.  Both requests carry
    the protection as the caller gave it (it is not translated).  The only
    other call is the release of the old address, made when a new address
    was obtained and the block was not empty. *)
Theorem realloc_requests
    (b : MemBlock ProcessMemory) (w : World ProcessMemory Ext)
    (m : ProcessMemory) (size desired protection : Z) :
  _memory b = Some m ->
  let r1 := VirualAllocExT C m desired size MEM_COMMIT protection (sys w) in
  exists q o',
    Realloc arch C size desired protection (mkObj b w) = Some (q, o') /\
    log (world o') = log w ++
      CAlloc m desired size MEM_COMMIT protection ::
      (if snd (fst r1) =? 0 then [CAlloc m 0 size MEM_COMMIT protection]
       else []) ++
      (if (q =? 0) || (_ptr b =? 0) then []
       else [native_free_call C m b 0]).
Proof.
  intros Hm r1.
  destruct (Realloc_run b w m size desired protection Hm) as (o' & HR & _ & HL).
  do 2 eexists. split; [exact HR|exact HL].
Qed.

(** X7.  When [Realloc] falls back to address 0 and obtains a region, it
    writes the relocation notice to the last-status slot before it
    releases the old region.  So the notice is what the caller finds in
    the slot only if the block was empty; otherwise the slot holds what
    the release call made of it. *)
Theorem realloc_notice_precedes_release
    (b : MemBlock ProcessMemory) (w : World ProcessMemory Ext)
    (m : ProcessMemory) (size desired protection : Z) :
  _memory b = Some m ->
  let r1 := VirualAllocExT C m desired size MEM_COMMIT protection (sys w) in
  let r2 := VirualAllocExT C m 0 size MEM_COMMIT protection (snd r1) in
  let noticed := mkSys (os (snd r2)) STATUS_IMAGE_NOT_AT_BASE in
  snd (fst r1) = 0 -> snd (fst r2) <> 0 ->
  exists o',
    Realloc arch C size desired protection (mkObj b w)
      = Some (snd (fst r2), o') /\
    sys (world o') =
      (if _ptr b =? 0 then noticed
       else snd (native_free_reply C m b 0 noticed)) /\
    (_ptr b = 0 -> lastNt (sys (world o')) = STATUS_IMAGE_NOT_AT_BASE).
Proof.
  intros Hm r1 r2 noticed. unfold noticed, r2, r1.
  unfold Realloc, bind, memory, lift, extcall, ret, assign, SetLastNtStatus.
  simpl. rewrite Hm. simpl.
  destruct (VirualAllocExT C m desired size MEM_COMMIT protection (sys w))
    as [[st1 p1] s1]. simpl. intros E1. subst p1. simpl.
  destruct (VirualAllocExT C m 0 size MEM_COMMIT protection s1)
    as [[st2 p2] s2]. simpl. intros E2.
  apply Z.eqb_neq in E2. rewrite E2. simpl. rewrite E2. simpl.
  destruct (Z.eqb_spec (_ptr b) 0) as [E|E].
  - rewrite Free_null by assumption. simpl.
    eexists. split; [reflexivity|]. simpl. split; reflexivity.
  - rewrite (Free_run _ _ arch C b _ m 0 E Hm). simpl. rewrite Align_0.
    destruct (NT_SUCCESS _); simpl;
      (eexists; split; [reflexivity|]; simpl; split;
       [reflexivity | intros; contradiction]).
Qed.

(** ** Protect *)

(** X8.  On a physical block [Protect] hands back the driver's status as it
    is and never reports the old protection, also when the caller asked
    for it. *)
Theorem protect_physical_reports_no_old_protection
    (b : MemBlock ProcessMemory) (w : World ProcessMemory Ext)
    (m : ProcessMemory) (protection offset size : Z) (pOld : bool) :
  _memory b = Some m -> _physical b = true ->
  exists o',
    Protect C protection offset size pOld (mkObj b w) =
      Some ((fst (drv_ProtectMem C (core_pid C m) (ptr_wrap (_ptr b + offset))
                    (if size =? 0 then _size b else size)
                    (CastProtection C protection (core_DEP C m)) (sys w)),
             None), o').
Proof.
  intros Hm Hph. step_ops. rewrite Hm. simpl. rewrite Hph. simpl.
  destruct (drv_ProtectMem C _ _ _ _ (sys w)) as [st s']. simpl. eauto.
Qed.


(** ** Read and Write *)

(** X10.  [Read] and [Write] go to the accessor whatever the backing kind
    of the block is: also on a physical block the single call they make is
    an accessor call at [address + offset], never a driver call.  They
    hand back what the accessor answered and leave the block as it was. *)
Theorem read_write_use_accessor
    (b : MemBlock ProcessMemory) (w : World ProcessMemory Ext)
    (m : ProcessMemory) (offset size : Z) (handleHoles : bool)
    (data : list Z) :
  _memory b = Some m ->
  let p := ptr_wrap (_ptr b + offset) in
  (exists o',
     Read C offset size handleHoles (mkObj b w) =
       Some (fst (mem_Read C m p size handleHoles (sys w)), o') /\
     this o' = b /\
     log (world o') = log w ++ [CMemRead m p size handleHoles]) /\
  (exists o',
     Write C offset size data (mkObj b w) =
       Some (fst (mem_Write C m p size data (sys w)), o') /\
     this o' = b /\
     log (world o') = log w ++ [CMemWrite m p size data]).
Proof.
  intros Hm p. unfold p. split; step_ops; rewrite Hm; simpl.
  - destruct (mem_Read C _ _ _ _ (sys w)) as [r s']. simpl.
    eexists. repeat split.
  - destruct (mem_Write C _ _ _ _ (sys w)) as [r s']. simpl.
    eexists. repeat split.
Qed.

End Requests.

Section Window.

Variable ProcessMemory : Type.
Variable Ext : Type.
Variable arch : Arch.
Variable C : Collaborators ProcessMemory Ext.

(** ** Partial free at the bounds *)

(** X11.  [Free] does not compare the request with the size of the block.
    When the page-rounded request [r] is larger than the size [S] and the
    collaborator grants it, the subtraction wraps: the block ends up with
    size [2^w + S - r] ([w] the width of [size_t]), which is larger than
    the size it had. *)
Theorem free_beyond_size_wraps
    (b : MemBlock ProcessMemory) (w : World ProcessMemory Ext)
    (m : ProcessMemory) (k : Z) :
  _ptr b <> 0 -> _memory b = Some m ->
  in_size_t arch (_size b) ->
  _size b < Align arch k 0x1000 ->
  NT_SUCCESS (fst (native_free_reply C m b (Align arch k 0x1000) (sys w)))
    = true ->
  exists o',
    Free arch C k (mkObj b w) = Some (STATUS_SUCCESS, o') /\
    _size (this o') = 2 ^ size_bits arch + _size b - Align arch k 0x1000 /\
    _size b < _size (this o').
Proof.
  intros Hp Hm HS Hr Hok. rewrite (Free_run _ _ arch C b w m k Hp Hm). simpl.
  rewrite Hok. pose proof (Align_range arch k) as HA.
  set (r := Align arch k 4096) in *. unfold in_size_t in *.
  assert (Hnz : (r =? 0) = false) by (apply Z.eqb_neq; lia).
  rewrite Hnz. eexists. split; [reflexivity|]. simpl.
  assert (Hw : size_wrap arch (_size b - r)
               = 2 ^ size_bits arch + _size b - r).
  { unfold size_wrap, wrap. symmetry.
    apply (Z.mod_unique _ _ (-1)); lia. }
  rewrite Hw. split; [reflexivity | lia].
Qed.

(** X12.  A partial free within the block keeps the end of the region: for
    [0 < r <= S], whether the collaborator grants or denies the request,
    [address + size] is the same after the call as before. *)
Theorem free_partial_keeps_end
    (b : MemBlock ProcessMemory) (w : World ProcessMemory Ext)
    (m : ProcessMemory) (k : Z) :
  _ptr b <> 0 -> _memory b = Some m ->
  in_ptr_t (_ptr b) -> in_size_t arch (_size b) ->
  0 < Align arch k 0x1000 <= _size b ->
  _ptr b + Align arch k 0x1000 < 2 ^ 64 ->
  exists st o',
    Free arch C k (mkObj b w) = Some (st, o') /\
    _ptr (this o') + _size (this o') = _ptr b + _size b.
Proof.
  intros Hp Hm Hin HS Hr Hlt. rewrite (Free_run _ _ arch C b w m k Hp Hm).
  simpl. set (r := Align arch k 4096) in *.
  destruct (NT_SUCCESS _); [|do 2 eexists; split; reflexivity].
  assert (Hnz : (r =? 0) = false) by (apply Z.eqb_neq; lia).
  rewrite Hnz. do 2 eexists. split; [reflexivity|]. simpl.
  rewrite (ptr_wrap_small (_ptr b + r)) by (unfold in_ptr_t in *; lia).
  rewrite (size_wrap_small arch (_size b - r))
    by (unfold in_size_t in *; lia).
  lia.
Qed.

(** X13.  Two granted partial frees in a row add up: after [Free(k1)] and
    [Free(k2)] with rounded sizes [r1] and [r2], [r1 + r2 <= S], the block
    is the original one advanced by [r1 + r2], and the second request
    named the address [address + r1]. *)
Theorem free_partial_twice_adds_up
    (b : MemBlock ProcessMemory) (w : World ProcessMemory Ext)
    (m : ProcessMemory) (k1 k2 : Z) :
  _ptr b <> 0 -> _memory b = Some m ->
  in_ptr_t (_ptr b) -> in_size_t arch (_size b) ->
  let r1 := Align arch k1 0x1000 in
  let r2 := Align arch k2 0x1000 in
  0 < r1 -> 0 < r2 -> r1 + r2 <= _size b ->
  _ptr b + r1 + r2 < 2 ^ 64 ->
  let reply1 := native_free_reply C m b r1 (sys w) in
  let reply2 := native_free_reply C m (advanced arch b r1) r2 (snd reply1) in
  NT_SUCCESS (fst reply1) = true ->
  NT_SUCCESS (fst reply2) = true ->
  exists o1 o2,
    Free arch C k1 (mkObj b w) = Some (STATUS_SUCCESS, o1) /\
    Free arch C k2 o1 = Some (STATUS_SUCCESS, o2) /\
    this o2 = mkMemBlock (_ptr b + (r1 + r2)) (_memory b)
                (_size b - (r1 + r2)) (_protection b) (_own b) (_physical b) /\
    log (world o2) = log w ++
      [native_free_call C m b r1;
       native_free_call C m (advanced arch b r1) r2] /\
    _ptr (advanced arch b r1) = _ptr b + r1.
Proof.
  intros Hp Hm Hin HS r1 r2 H1 H2 Hsum Hlt reply1 reply2 Hok1 Hok2.
  unfold in_ptr_t, in_size_t in *.
  assert (Hp1 : ptr_wrap (_ptr b + r1) = _ptr b + r1)
    by (apply ptr_wrap_small; unfold in_ptr_t; lia).
  assert (Hs1 : size_wrap arch (_size b - r1) = _size b - r1)
    by (apply size_wrap_small; unfold in_size_t; lia).
  rewrite (Free_run _ _ arch C b w m k1 Hp Hm). simpl.
  fold r1. fold reply1. rewrite Hok1.
  assert (Hnz1 : (r1 =? 0) = false) by (apply Z.eqb_neq; lia).
  rewrite Hnz1. do 2 eexists. split; [reflexivity|].
  assert (Hp' : _ptr (advanced arch b r1) <> 0) by (simpl; lia).
  assert (Hm' : _memory (advanced arch b r1) = Some m) by exact Hm.
  rewrite (Free_run _ _ arch C (advanced arch b r1) _ m k2 Hp' Hm').
  simpl. fold r2. fold reply2. rewrite Hok2.
  assert (Hnz2 : (r2 =? 0) = false) by (apply Z.eqb_neq; lia).
  rewrite Hnz2. split; [reflexivity|]. simpl.
  split; [|split; [now rewrite <- app_assoc | exact Hp1]].
  unfold advanced. simpl. rewrite Hp1, Hs1.
  rewrite (ptr_wrap_small (_ptr b + r1 + r2)) by (unfold in_ptr_t; lia).
  rewrite (size_wrap_small arch (_size b - r1 - r2))
    by (unfold in_size_t; lia).
  f_equal; lia.
Qed.

End Window.

Section Invariants.

Variable ProcessMemory : Type.
Variable Ext : Type.
Variable arch : Arch.
Variable C : Collaborators ProcessMemory Ext.

(** ** What no sequence of calls changes *)

Lemma framed_refl (o : Obj ProcessMemory Ext) : framed o o.
Proof.
  repeat split; auto. exists []. now rewrite app_nil_r.
Qed.

Lemma framed_trans (o1 o2 o3 : Obj ProcessMemory Ext) :
  framed o1 o2 -> framed o2 o3 -> framed o1 o3.
Proof.
  intros (Hp1 & Ho1 & Hm1 & cs1 & Hl1 & Hf1) (Hp2 & Ho2 & Hm2 & cs2 & Hl2 & Hf2).
  split; [congruence|]. split; [auto|]. split.
  - destruct Hm2 as [E|E]; [rewrite E; exact Hm1 | now right].
  - exists (cs1 ++ cs2). split.
    + rewrite Hl2, Hl1. now rewrite app_assoc.
    + rewrite forallb_app, Hf1. rewrite Hp1 in Hf2. now rewrite Hf2.
Qed.

Lemma allowed_free_call (m : ProcessMemory) (b : MemBlock ProcessMemory)
    (sz : Z) :
  allowed (_physical b) (native_free_call C m b sz) = true.
Proof.
  unfold allowed, native_free_call. destruct (_physical b); reflexivity.
Qed.

Lemma Free_framed (size : Z) (o o' : Obj ProcessMemory Ext) (st : NTSTATUS) :
  Free arch C size o = Some (st, o') -> framed o o'.
Proof.
  destruct o as [b w]. intros H.
  destruct (Z.eq_dec (_ptr b) 0) as [E|E].
  - rewrite Free_null in H by assumption. inversion H. apply framed_refl.
  - destruct (_memory b) as [m|] eqn:Hm.
    + destruct (Free_log _ _ arch C b w m size Hm)
        as (st' & b' & s' & HF & Hb1 & Hb2 & Hb3).
      rewrite HF in H. inversion H; subst. unfold framed. simpl.
      split; [exact Hb3|]. split; [congruence|]. split; [left; congruence|].
      eexists. split; [reflexivity|].
      destruct (_ptr b =? 0); [reflexivity|]. simpl.
      now rewrite allowed_free_call.
    + revert H. step_ops. apply Z.eqb_neq in E. rewrite E. simpl.
      rewrite Hm. discriminate.
Qed.

Lemma Realloc_framed (size desired protection q : Z)
    (o o' : Obj ProcessMemory Ext) :
  Realloc arch C size desired protection o = Some (q, o') -> framed o o'.
Proof.
  destruct o as [b w]. intros H.
  destruct (_memory b) as [m|] eqn:Hm.
  - destruct (Realloc_run _ _ arch C b w m size desired protection Hm)
      as (o1 & HR & Hthis & Hlog).
    rewrite HR in H. inversion H; subst. unfold framed. simpl.
    rewrite Hthis, Hlog.
    destruct (realloc_address C m size desired protection (sys w) =? 0);
      simpl; (split; [reflexivity|]); (split; [auto|]);
      (split; [left; congruence|]);
      (eexists; split; [reflexivity|]); simpl;
      destruct (snd (fst _) =? 0); simpl; try reflexivity;
      destruct (_ptr b =? 0); simpl; try reflexivity;
      now rewrite allowed_free_call.
  - revert H. unfold Realloc, bind, memory. simpl. rewrite Hm. discriminate.
Qed.

Lemma perform_framed (op : Op) (o o' : Obj ProcessMemory Ext) :
  perform arch C op o = Some (tt, o') -> framed o o'.
Proof.
  destruct op; unfold perform, bind, ret.
  - destruct (Free arch C size o) as [[st o1]|] eqn:HF; [|discriminate].
    intros H. inversion H; subst. eapply Free_framed; eassumption.
  - destruct (Realloc arch C size desired protection o) as [[q o1]|] eqn:HR;
      [|discriminate].
    intros H. inversion H; subst. eapply Realloc_framed; eassumption.
  - destruct o as [b w]. destruct (_memory b) as [m|] eqn:Hm.
    + destruct (Protect_run _ _ C b w m protection offset size pOld Hm)
        as (r & s' & HP).
      rewrite HP. intros H. inversion H; subst. unfold framed. simpl.
      repeat split; auto. eexists. split; [reflexivity|].
      unfold allowed. destruct (_physical b); reflexivity.
    + step_ops. rewrite Hm. discriminate.
  - destruct o as [b w]. step_ops. destruct (_memory b) as [m|]; [|discriminate].
    simpl. destruct (mem_Read C _ _ _ _ (sys w)) as [r s']. simpl.
    intros H. inversion H; subst. unfold framed. simpl.
    repeat split; auto. eexists. split; [reflexivity|]. reflexivity.
  - destruct o as [b w]. step_ops. destruct (_memory b) as [m|]; [|discriminate].
    simpl. destruct (mem_Write C _ _ _ _ (sys w)) as [r s']. simpl.
    intros H. inversion H; subst. unfold framed. simpl.
    repeat split; auto. eexists. split; [reflexivity|]. reflexivity.
  - unfold Reset, bind.
    destruct (Free arch C 0 o) as [[st o1]|] eqn:HF; [|discriminate].
    apply Free_framed in HF. unfold assign. simpl.
    intros H. inversion H; subst.
    eapply framed_trans; [exact HF|]. unfold framed. simpl.
    split; [reflexivity|]. split; [discriminate|]. split; [now right|].
    exists []. now rewrite app_nil_r.
Qed.

Lemma perform_all_framed (ops : list Op) (o o' : Obj ProcessMemory Ext) :
  perform_all arch C ops o = Some (tt, o') -> framed o o'.
Proof.
  revert o. induction ops as [|op rest IH]; intros o; simpl.
  - unfold ret. intros H. inversion H. apply framed_refl.
  - unfold bind.
    destruct (perform arch C op o) as [[[] o1]|] eqn:HP; [|discriminate].
    intros H. eapply framed_trans.
    + eapply perform_framed; eassumption.
    + apply IH; assumption.
Qed.

(** X14.  The backing kind of a block is fixed: after any sequence of
    [Free], [Realloc], [Protect], [Read], [Write] and [Reset] calls that
    runs to its end, [_physical] is what it was at the start. *)
Theorem backing_never_changes
    (ops : list Op) (o o' : Obj ProcessMemory Ext) :
  perform_all arch C ops o = Some (tt, o') ->
  _physical (this o') = _physical (this o).
Proof. intros H. apply perform_all_framed in H. apply H. Qed.


(** X16.  No operation makes a block owning.  A block that does not own
    its region at the start of a sequence of operations does not own the
    region it describes at the end either, and its destructor then
    releases nothing. *)
Theorem non_owning_block_never_releases_on_destroy
    (ops : list Op) (o o' : Obj ProcessMemory Ext) :
  perform_all arch C ops o = Some (tt, o') ->
  _own (this o) = false ->
  _own (this o') = false /\
  destroy arch C o' = Some (tt, o').
Proof.
  intros H Hn. apply perform_all_framed in H.
  destruct H as (_ & Ho & _).
  assert (Hn' : _own (this o') = false).
  { destruct (_own (this o')); [|reflexivity]. rewrite Ho in Hn; auto. }
  split; [exact Hn'|]. unfold destroy, bind, self. simpl. now rewrite Hn'.
Qed.

End Invariants.

Section Composition.

Variable ProcessMemory : Type.
Variable Ext : Type.
Variable arch : Arch.
Variable C : Collaborators ProcessMemory Ext.

(** ** From allocation to destruction *)

Lemma Allocate_block (process : ProcessMemory) (size desired protection : Z)
    (w : World ProcessMemory Ext) :
  exists p w',
    Allocate C process size desired protection w =
      Some (MemBlock_ctor process p size protection true false, w').
Proof.
  step_ops.
  destruct (VirualAllocExT C process desired _ _ _ _) as [[st1 p1] s1].
  simpl. destruct (st1 =? STATUS_SUCCESS); simpl; [eauto|].
  destruct (VirualAllocExT C process 0 _ _ _ _) as [[st2 p2] s2].
  simpl. destruct (st2 =? STATUS_SUCCESS); simpl; eauto.
Qed.

(** X17.  Destroying the block that [Allocate] returned releases what was
    allocated and nothing else: when the block is invalid (address 0) the
    destructor calls no collaborator; otherwise it sends one release
    request (size 0, release mode) for the block's address to the accessor
    of the process the block was allocated in. *)
Theorem allocate_then_destroy
    (process : ProcessMemory) (size desired protection : Z)
    (w : World ProcessMemory Ext) :
  exists b' w' o',
    Allocate C process size desired protection w = Some (b', w') /\
    destroy arch C (mkObj b' w') = Some (tt, o') /\
    log (world o') = log w' ++
      (if _ptr b' =? 0 then []
       else [CMemFree process (_ptr b') 0 MEM_RELEASE]).
Proof.
  destruct (Allocate_block process size desired protection w) as (p & w' & HA).
  exists (MemBlock_ctor process p size protection true false), w'.
  unfold destroy, bind, self. simpl.
  destruct (Z.eqb_spec p 0) as [E|E].
  - rewrite Free_null by exact E. eexists. split; [exact HA|].
    split; [reflexivity|]. simpl. now rewrite app_nil_r.
  - rewrite (Free_run _ _ arch C
               (MemBlock_ctor process p size protection true false)
               w' process 0 E eq_refl). simpl.
    rewrite Align_0. simpl. unfold native_free_call. simpl.
    destruct (NT_SUCCESS _); (eexists; split; [exact HA|]);
      split; reflexivity.
Qed.

(** ** Realloc on a physical block *)

(** X18.  [Realloc] does not look at the backing kind.  On a physical block
    the new region comes from the native allocator, like on a virtual one,
    and the block stays physical: the [Free] that follows sends the
    address obtained from the native allocator to the driver. *)
Theorem realloc_physical_then_free
    (b : MemBlock ProcessMemory) (w : World ProcessMemory Ext)
    (m : ProcessMemory) (size desired protection : Z) :
  _memory b = Some m -> _physical b = true ->
  let q := realloc_address C m size desired protection (sys w) in
  q <> 0 ->
  exists o1 st o2,
    Realloc arch C size desired protection (mkObj b w) = Some (q, o1) /\
    _ptr (this o1) = q /\ _physical (this o1) = true /\
    Free arch C 0 o1 = Some (st, o2) /\
    log (world o2) = log (world o1) ++
      [CDrvFree (core_pid C m) q 0 MEM_RELEASE].
Proof.
  intros Hm Hph q Hq.
  destruct (Realloc_run _ _ arch C b w m size desired protection Hm)
    as (o1 & HR & Hthis & _).
  fold q in HR, Hthis. apply Z.eqb_neq in Hq. rewrite Hq in Hthis.
  destruct o1 as [b1 w1]. simpl in Hthis. subst b1.
  eexists. rewrite HR.
  apply Z.eqb_neq in Hq.
  rewrite (Free_run _ _ arch C
             (mkMemBlock q (_memory b) size protection (_own b) (_physical b))
             w1 m 0 Hq Hm). simpl. rewrite Align_0.
  unfold native_free_call. simpl. rewrite Hph.
  destruct (NT_SUCCESS _); do 2 eexists; repeat split; assumption.
Qed.

End Composition.

(** * The further properties on explicit inputs *)

Lemma destroy_non_owning_witness :
  destroy X64 Mock.collab (mkObj MockRuns.view Mock.denying)
  = Some (tt, mkObj MockRuns.view Mock.denying).
Proof.
  apply (destroy_non_owning unit Mock.Script X64 Mock.collab
           MockRuns.view Mock.denying).
  reflexivity.
Defined.

Lemma destroy_owning_releases_once_witness :
  exists o',
    destroy X64 Mock.collab (mkObj Mock.held_physical Mock.denying)
      = Some (tt, o') /\
    log (world o') = [] ++ [CDrvFree 4242 0x10000 0 MEM_RELEASE] /\
    sys (world o') =
      snd (native_free_reply Mock.collab tt Mock.held_physical 0
             (sys Mock.denying)) /\
    this o' = Mock.held_physical.
Proof.
  apply (destroy_owning_releases_once unit Mock.Script X64 Mock.collab
           Mock.held_physical Mock.denying tt).
  - reflexivity.
  - computed.
  - reflexivity.
Defined.

Lemma reset_leaves_block_inert_witness :
  exists o1,
    Reset X64 Mock.collab (mkObj Mock.held Mock.granting) = Some (tt, o1) /\
    Reset X64 Mock.collab o1 = Some (tt, o1) /\
    Free X64 Mock.collab 0x1000 o1 = Some (STATUS_SUCCESS, o1) /\
    destroy X64 Mock.collab o1 = Some (tt, o1).
Proof.
  apply (reset_leaves_block_inert unit Mock.Script X64 Mock.collab
           Mock.held Mock.granting 0x1000).
  intros _. exists tt. reflexivity.
Defined.

Lemma reset_then_use_dereferences_null_witness :
  exists o1,
    Reset X64 Mock.collab (mkObj Mock.held Mock.granting) = Some (tt, o1) /\
    Realloc X64 Mock.collab 0x2000 0 PAGE_READWRITE o1 = None /\
    Protect Mock.collab PAGE_READWRITE 0 0x2000 false o1 = None /\
    Read Mock.collab 0 0x2000 false o1 = None /\
    Write Mock.collab 0 0x2000 [7] o1 = None.
Proof.
  apply (reset_then_use_dereferences_null unit Mock.Script X64 Mock.collab
           Mock.held Mock.granting 0x2000 0 PAGE_READWRITE 0 false [7]).
  intros _. exists tt. reflexivity.
Defined.

Lemma allocate_at_desired_witness :
  Allocate Mock.collab tt 0x2000 0x5000 0x40
    (Mock.start [(STATUS_SUCCESS, 0x5000)] 0 0)
  = Some (MemBlock_ctor tt 0x5000 0x2000 0x40 true false,
          mkWorld (mkSys (Mock.mkScript [] 0 0) STATUS_SUCCESS)
            [CAlloc tt 0x5000 0x2000 MEM_COMMIT 0x40]).
Proof.
  apply (allocate_at_desired unit Mock.Script Mock.collab tt 0x2000 0x5000 0x40
           (Mock.start [(STATUS_SUCCESS, 0x5000)] 0 0)).
  reflexivity.
Defined.

Lemma realloc_requests_witness :
  exists q o',
    Realloc X64 Mock.collab 0x2000 0x5000 PAGE_READWRITE
      (mkObj Mock.held Mock.relocating_high) = Some (q, o') /\
    log (world o') = [] ++
      CAlloc tt 0x5000 0x2000 MEM_COMMIT PAGE_READWRITE ::
      [CAlloc tt 0 0x2000 MEM_COMMIT PAGE_READWRITE] ++
      (if (q =? 0) || (0x10000 =? 0) then []
       else [CMemFree tt 0x10000 0 MEM_RELEASE]).
Proof.
  apply (realloc_requests unit Mock.Script X64 Mock.collab
           Mock.held Mock.relocating_high tt 0x2000 0x5000 PAGE_READWRITE).
  reflexivity.
Defined.

(** The scripted accessor stores the status of every request in the
    last-status slot, so after a relocating [Realloc] of a held block the
    slot holds the status of the release, not the relocation notice. *)
Lemma realloc_notice_precedes_release_witness :
  exists o',
    Realloc X64 Mock.collab 0x2000 0x5000 PAGE_READWRITE
      (mkObj Mock.held Mock.relocating_high) = Some (0x770000, o') /\
    sys (world o') = mkSys (Mock.mkScript [] 0 0) STATUS_SUCCESS /\
    (_ptr Mock.held = 0 ->
     lastNt (sys (world o')) = STATUS_IMAGE_NOT_AT_BASE).
Proof.
  apply (realloc_notice_precedes_release unit Mock.Script X64 Mock.collab
           Mock.held Mock.relocating_high tt 0x2000 0x5000 PAGE_READWRITE).
  - reflexivity.
  - reflexivity.
  - computed.
Defined.

Lemma protect_physical_reports_no_old_protection_witness :
  exists o',
    Protect Mock.collab PAGE_READONLY 0 0 true
      (mkObj Mock.held_physical Mock.denying)
    = Some ((Mock.STATUS_ACCESS_DENIED, None), o').
Proof.
  apply (protect_physical_reports_no_old_protection unit Mock.Script
           Mock.collab Mock.held_physical Mock.denying tt PAGE_READONLY 0 0 true).
  - reflexivity.
  - reflexivity.
Defined.


Lemma read_write_use_accessor_witness :
  (exists o',
     Read Mock.collab 0x10 4 false (mkObj Mock.held_physical Mock.granting) =
       Some ((STATUS_SUCCESS, []), o') /\
     this o' = Mock.held_physical /\
     log (world o') = [] ++ [CMemRead tt 0x10010 4 false]) /\
  (exists o',
     Write Mock.collab 0x10 4 [1; 2; 3; 4]
       (mkObj Mock.held_physical Mock.granting) =
       Some (STATUS_SUCCESS, o') /\
     this o' = Mock.held_physical /\
     log (world o') = [] ++ [CMemWrite tt 0x10010 4 [1; 2; 3; 4]]).
Proof.
  apply (read_write_use_accessor unit Mock.Script Mock.collab
           Mock.held_physical Mock.granting tt 0x10 4 false [1; 2; 3; 4]).
  reflexivity.
Defined.

Lemma free_beyond_size_wraps_witness :
  exists o',
    Free X64 Mock.collab 0x4000 (mkObj Mock.held Mock.granting)
      = Some (STATUS_SUCCESS, o') /\
    _size (this o') = 2 ^ 64 + 0x3000 - 0x4000 /\
    0x3000 < _size (this o').
Proof.
  apply (free_beyond_size_wraps unit Mock.Script X64 Mock.collab
           Mock.held Mock.granting tt 0x4000).
  - computed.
  - reflexivity.
  - vm_compute. split; [discriminate | reflexivity].
  - reflexivity.
  - reflexivity.
Defined.

Lemma free_partial_keeps_end_witness :
  exists st o',
    Free X64 Mock.collab 0x1800 (mkObj Mock.held Mock.granting)
      = Some (st, o') /\
    _ptr (this o') + _size (this o') = 0x10000 + 0x3000.
Proof.
  apply (free_partial_keeps_end unit Mock.Script X64 Mock.collab
           Mock.held Mock.granting tt 0x1800).
  - computed.
  - reflexivity.
  - vm_compute. split; [discriminate | reflexivity].
  - vm_compute. split; [discriminate | reflexivity].
  - vm_compute. split; [reflexivity | discriminate].
  - reflexivity.
Defined.

Lemma free_partial_twice_adds_up_witness :
  exists o1 o2,
    Free X64 Mock.collab 0x1000 (mkObj Mock.held Mock.granting)
      = Some (STATUS_SUCCESS, o1) /\
    Free X64 Mock.collab 0x2000 o1 = Some (STATUS_SUCCESS, o2) /\
    this o2 = mkMemBlock (0x10000 + (0x1000 + 0x2000)) (Some tt)
                (0x3000 - (0x1000 + 0x2000)) 0x40 true false /\
    log (world o2) =
      [CMemFree tt 0x10000 0x1000 MEM_DECOMMIT;
       CMemFree tt 0x11000 0x2000 MEM_DECOMMIT] /\
    _ptr (advanced X64 Mock.held 0x1000) = 0x10000 + 0x1000.
Proof.
  apply (free_partial_twice_adds_up unit Mock.Script X64 Mock.collab
           Mock.held Mock.granting tt 0x1000 0x2000).
  - computed.
  - reflexivity.
  - vm_compute. split; [discriminate | reflexivity].
  - vm_compute. split; [discriminate | reflexivity].
  - reflexivity.
  - reflexivity.
  - vm_compute. discriminate.
  - reflexivity.
  - reflexivity.
  - reflexivity.
Defined.

Lemma backing_never_changes_witness :
  exists o',
    perform_all X64 Mock.collab MockRuns.session
      (mkObj Mock.held_physical Mock.relocating_high) = Some (tt, o') /\
    _physical (this o') = true.
Proof.
  eexists. split; [vm_compute; reflexivity|].
  apply (backing_never_changes unit Mock.Script X64 Mock.collab
           MockRuns.session (mkObj Mock.held_physical Mock.relocating_high)).
  vm_compute. reflexivity.
Defined.


Lemma non_owning_block_never_releases_on_destroy_witness :
  exists o',
    perform_all X64 Mock.collab MockRuns.work
      (mkObj MockRuns.view Mock.relocating_high) = Some (tt, o') /\
    _own (this o') = false /\
    destroy X64 Mock.collab o' = Some (tt, o').
Proof.
  eexists. split; [vm_compute; reflexivity|].
  apply (non_owning_block_never_releases_on_destroy unit Mock.Script X64
           Mock.collab MockRuns.work
           (mkObj MockRuns.view Mock.relocating_high)).
  - vm_compute. reflexivity.
  - reflexivity.
Defined.

Lemma realloc_physical_then_free_witness :
  exists o1 st o2,
    Realloc X64 Mock.collab 0x2000 0x5000 PAGE_READWRITE
      (mkObj Mock.held_physical Mock.relocating_high)
      = Some (0x770000, o1) /\
    _ptr (this o1) = 0x770000 /\ _physical (this o1) = true /\
    Free X64 Mock.collab 0 o1 = Some (st, o2) /\
    log (world o2) = log (world o1) ++
      [CDrvFree 4242 0x770000 0 MEM_RELEASE].
Proof.
  apply (realloc_physical_then_free unit Mock.Script X64 Mock.collab
           Mock.held_physical Mock.relocating_high tt 0x2000 0x5000
           PAGE_READWRITE).
  - reflexivity.
  - reflexivity.
  - computed.
Defined.
